(** * LayerModelHelper: a shallow embedding of
      [caffe2/python/layer_model_helper.py]

    The Python class is a registry over an external graph-building API.
    Its methods mutate the attributes of [self] and may raise; a raised
    exception does not undo the mutations made before it.  The embedding
    therefore uses a state-and-exception monad over a record that holds the
    attributes of the object.

    Python dictionaries that the code only indexes are finite maps
    ([gmap]); dictionaries that the code iterates over are association
    lists in insertion order ([odict]), which the interpreter enumerates in
    an order of its own ([viewitems]); the set of layer names is a
    [gset]. *)

From Stdlib Require Import QArith.
From stdpp Require Import gmap strings list fin_maps pretty sorting.

Open Scope string_scope.
Open Scope list_scope.

(** ** Python outcomes *)

Inductive exn :=
| AssertionError
| ValueError
| TypeError
| KeyError
| OutOfFuel   (* not a Python exception: a loop of the model reached its
                 bound; [auto_name_loop_total] shows that none does *).

Inductive outcome (A : Type) :=
| Returned (a : A)
| Raised (e : exn).
Arguments Returned {A} a.
Arguments Raised {A} e.

Inductive python := Py2 | Py3.

#[global] Instance exn_eq_dec : EqDecision exn.
Proof. solve_decision. Defined.

(** A computation over a mutable object of type [S]: the final state is
    returned on both branches, as Python keeps the mutations made before an
    exception. *)
Definition M (S A : Type) : Type := S → outcome A * S.

#[global] Instance M_ret {S} : MRet (M S) := λ A a s, (Returned a, s).

#[global] Instance M_bind {S} : MBind (M S) := λ A B f m s,
  match m s with
  | (Returned a, s') => f a s'
  | (Raised e, s') => (Raised e, s')
  end.

Definition raise {S A} (e : exn) : M S A := λ s, (Raised e, s).

Definition py_assert {S} (b : bool) : M S unit :=
  if b then mret () else raise AssertionError.

Definition gets {S A} (f : S → A) : M S A := λ s, (Returned (f s), s).

Definition modify {S} (f : S → S) : M S unit := λ s, (Returned (), f s).

Definition lift_outcome {S A} (o : outcome A) : M S A := λ s, (o, s).

(** ** Dictionaries that are iterated over

    The items are kept in the order in which the keys were first assigned;
    assigning to a key that is present keeps its position.  The order in
    which [viewitems] and [viewvalues] enumerate them belongs to the
    interpreter (see [Framework]). *)

Section odict.
Context {V : Type}.

Fixpoint odict_get (k : string) (d : list (string * V)) : option V :=
  match d with
  | [] => None
  | (k', v') :: d' => if decide (k' = k) then Some v' else odict_get k d'
  end.

Fixpoint odict_set (k : string) (v : V) (d : list (string * V))
  : list (string * V) :=
  match d with
  | [] => [(k, v)]
  | (k', v') :: d' =>
      if decide (k' = k) then (k, v) :: d' else (k', v') :: odict_set k v d'
  end.

Definition odict_mem (k : string) (d : list (string * V)) : bool :=
  bool_decide (k ∈ d.*1).
End odict.

(** ** The `_auto_` renaming loop

    [next_layer_name] and [add_loss] contain the same loop:
<<
    name = base_name; index = 0
    while name in taken:
        name = base_name + '_auto_' + str(index)
        index += 1
>>
    [auto_name_loop] runs it with a bound on the number of iterations of the
    body; [fuel] is consumed once per iteration. *)

Definition auto_name (base_name : string) (index : nat) : string :=
  base_name +:+ "_auto_" +:+ pretty index.

Fixpoint auto_name_loop (fuel : nat) (taken : string → bool)
    (base_name name : string) (index : nat) : option string :=
  if taken name then
    match fuel with
    | O => None
    | S fuel' =>
        auto_name_loop fuel' taken base_name (auto_name base_name index) (S index)
    end
  else Some name.

(** The name tested in iteration [k] of the loop. *)
Definition candidate (base_name : string) (k : nat) : string :=
  match k with
  | O => base_name
  | S i => auto_name base_name i
  end.

(** ** Operators, arrays and nets of the host framework *)

Inductive scalar :=
| SFloat (q : Q)
| SInt (z : Z)
| SStr (s : string)
| SBool (b : bool).

Inductive array_like :=
| AScalar (x : scalar)
| AList (xs : list scalar).

Inductive argval :=
| ArgInts (l : list Z)
| ArgScalars (l : list scalar).

Inductive np_dtype :=
| np_int32 | np_int64 | np_str | np_bool | np_float32 | np_float64.

Record ndarray := {
  nd_dtype : np_dtype;
  nd_shape : list Z;
  nd_flat : list scalar   (* array.flatten().tolist() *)
}.

Record OperatorDef := {
  op_type : string;
  op_input : list string;
  op_output : list string;
  op_arg : list (string * argval);
  device_option : option string;
  debug_info : string
}.

(** What a call finds around it and does not receive as an argument: the
    call site, from which the framework takes the debugging information of
    an operator, and the device scope the call is made in. *)
Record ambient := {
  call_site : string;
  device_scope : option string
}.

Definition top_level : ambient :=
  {| call_site := ""; device_scope := None |}.

#[global] Instance Q_eq_dec : EqDecision Q.
Proof. solve_decision. Defined.
#[global] Instance scalar_eq_dec : EqDecision scalar.
Proof. solve_decision. Defined.
#[global] Instance argval_eq_dec : EqDecision argval.
Proof. solve_decision. Defined.
#[global] Instance np_dtype_eq_dec : EqDecision np_dtype.
Proof. solve_decision. Defined.
#[global] Instance OperatorDef_eq_dec : EqDecision OperatorDef.
Proof. solve_decision. Defined.

Record Net := {
  net_name : string;
  net_op : list OperatorDef;        (* net._net.op *)
  net_registered : gset string      (* blob names the net has handed out *)
}.

(** [core.Net(name)]: a net without operators. *)
Definition new_Net (name : string) : Net :=
  {| net_name := name; net_op := []; net_registered := ∅ |}.

Definition net_extend (ops : list OperatorDef) (n : Net) : Net :=
  {| net_name := net_name n; net_op := net_op n ++ ops;
     net_registered := net_registered n |}.

(** ** Dynamically typed arguments *)

(** Values that reach the helper where a string or a dictionary is
    expected. *)
Inductive pyatom :=
| PyNone
| PyInt (z : Z)
| PyStr (s : string).

Inductive pyvalue :=
| PyAtom (a : pyatom)
| PyDict (items : list (pyatom * pyatom)).

#[global] Instance pyatom_eq_dec : EqDecision pyatom.
Proof. solve_decision. Defined.

(** ** Schema records *)

(** Modelled from the spec: the schema/record system is an external
    collaborator, "structured, nested tensor-field descriptions supporting
    algebraic composition".  A struct is an ordered list of named fields,
    with plain names (the nested-name syntax of the schema module is not
    modelled); [name in struct] tests the field names and is refused by a
    field that is not a struct; [a + b] appends the fields of [b] to those
    of [a].  The schema module merges two fields of one name when both are
    structs; the helper's own additions always use a name that is absent,
    so the model raises on a name that is present. *)
#[warnings="-register-all"] Inductive Field :=
| Scalar (blob : option string)
| Struct (fields : list (string * Field))
| ListOf (item : Field).

Fixpoint struct_add_fields (l r : list (string * Field))
  : outcome (list (string * Field)) :=
  match r with
  | [] => Returned l
  | (n, f) :: r' =>
      if odict_mem n l then Raised TypeError
      else struct_add_fields (l ++ [(n, f)]) r'
  end.

Definition struct_add (a b : Field) : outcome Field :=
  match a, b with
  | Struct l, Struct r =>
      match struct_add_fields l r with
      | Returned fs => Returned (Struct fs)
      | Raised e => Raised e
      end
  | _, _ => Raised TypeError
  end.

(** ** Optimizers, regularizers, layers *)

(** The calls the helper makes to the callables it is handed, in order. *)
Inductive event :=
| CallOptimizer (callee param : string) (grad : option string) (device : string)
| CallRegularizer (callee param : string) (grad : option string).

Record Optimizer := { optimizer_name : string }.

Record Regularizer := {
  regularizer_name : string;
  is_Regularizer : bool;            (* isinstance(r, Regularizer) *)
  apply_after_optimizer : bool;
  (* the blob the call returns, given the external calls made before it *)
  regularizer_result : list event → string → string
}.

Inductive blob_or_other :=
| BlobReference (blob : string)
| NotBlobReference.

Definition str (b : blob_or_other) : string :=
  match b with
  | BlobReference blob => blob
  | NotBlobReference => "<object>"
  end.

Inductive parameter_class :=
| LayerParameter
| ParameterInfo
| OtherParameter.

Record ParamObject := {
  class_of : parameter_class;
  parameter : blob_or_other;
  initializer : option OperatorDef;
  optimizer : option Optimizer;
  ps_param : option string;
  regularizer : option Regularizer
}.

Record Layer := {
  get_parameters : list ParamObject;
  layer_output_schema : Field;
  (* layer.add_operators(net, init_net) mutates both nets and may raise *)
  add_operators : Net → Net → outcome unit * (Net * Net)
}.

(** ** The host framework

    The interpreter and the parts of the framework that the helper calls
    and whose code is not part of the module.  They come with the
    guarantees the helper relies on:
    - the blob that [NextBlob] returns was not handed out by the net before;
    - [viewitems] and [viewvalues] enumerate every item of a dictionary
      once, in an order that is the insertion order only on an interpreter
      whose dictionaries keep it ([insertion_ordered]);
    - [np.array] may raise, and [core.CreateOperator] refuses some
      operators ([operator_accepted]; it raises ValueError, for instance
      on an integer argument outside int64), but not for the three
      constants of the constructor: numpy reads 1.0 and 0.0 as float arrays
      without dimensions and [0, 0] with dtype 'int32' as an int32 array of
      two elements, and the framework accepts their initializers. *)
Class Framework := {
  python_version : python;
  viewitems : ∀ V : Type, list (string * V) → list (string * V);
  viewitems_perm : ∀ V (d : list (string * V)), viewitems V d ≡ₚ d;
  ScopedName : string → string;
  get_parameter_name : string → string;
  NextBlob : Net → string → string * Net;
  NextBlob_fresh : ∀ n prefix, (NextBlob n prefix).1 ∉ net_registered n;
  NextBlob_registered : ∀ n prefix,
    net_registered (NextBlob n prefix).2
    = {[ (NextBlob n prefix).1 ]} ∪ net_registered n;
  NewRecord : Net → Field → Field * Net;
  np_array : array_like → option string → outcome ndarray;
  np_array_float : ∀ q : Q,
    q = 1%Q ∨ q = 0%Q →
    np_array (AScalar (SFloat q)) None
    = Returned {| nd_dtype := np_float64; nd_shape := [];
                  nd_flat := [SFloat q] |};
  np_array_zero_range :
    np_array (AList [SInt 0; SInt 0]) (Some "int32")
    = Returned {| nd_dtype := np_int32; nd_shape := [2%Z];
                  nd_flat := [SInt 0; SInt 0] |};
  operator_accepted :
    string → list string → list string → list (string * argval) → bool;
  operator_accepted_float : ∀ (blob : string) (q : Q),
    q = 1%Q ∨ q = 0%Q →
    operator_accepted "GivenTensorFill" [] [blob]
      [("shape", ArgInts []); ("values", ArgScalars [SFloat q])] = true;
  operator_accepted_zero_range : ∀ blob : string,
    operator_accepted "GivenTensorIntFill" [] [blob]
      [("shape", ArgInts [2%Z]); ("values", ArgScalars [SInt 0; SInt 0])]
    = true;
  get_param_device :
    string → option string → gmap string string → string → string
}.

Arguments viewitems {_ V} d.

(** The interpreter enumerates dictionaries in insertion order (Python 3.7
    and later). *)
Definition insertion_ordered `{Framework} : Prop :=
  ∀ V (d : list (string * V)), viewitems d = d.

Definition viewvalues `{Framework} {V} (d : list (string * V)) : list V :=
  (viewitems d).*2.

(** Modelled from the spec: [core.CreateOperator] belongs to "the
    underlying graph/operator runtime (creates operators, executes nets,
    manages device placement)", an external collaborator.
    [CreateOperator(type, inputs, outputs, **kwargs)] returns the operator
    with these fields, stamped with the device scope and the debugging
    information of the call ([ctx]), or raises ValueError when the
    framework cannot store an argument ([operator_accepted]). *)
Definition CreateOperator `{Framework} (ctx : ambient) (type : string)
    (inputs outputs : list string) (kwargs : list (string * argval))
  : outcome OperatorDef :=
  if operator_accepted type inputs outputs kwargs
  then Returned {| op_type := type; op_input := inputs;
                   op_output := outputs; op_arg := kwargs;
                   device_option := device_scope ctx;
                   debug_info := call_site ctx |}
  else Raised ValueError.

(** ** The object *)

Record LayerModelHelper := {
  (* attributes set by ModelHelper.__init__ *)
  model_name : string;
  net : Net;
  param_init_net : Net;
  params : list string;
  (* attributes set by LayerModelHelper.__init__ *)
  _layer_names : gset string;
  _layers : list Layer;
  _param_to_shape : gmap string (option (list Z));
  _seed : option Z;
  _sequence_seed : bool;
  param_to_optim : list (string * option Optimizer);
  param_to_reg : list (string * option Regularizer);
  _default_optimizer : option Optimizer;
  _loss : option Field;
  _output_schema : option Field;
  _breakdown_map : option (list (pyatom * pyatom));
  _input_feature_schema : Field;
  _trainer_extra_schema : Field;
  _metrics_schema : list (string * Field);
  global_constants : gmap string string;
  global_constant_initializers : list (string * OperatorDef);
  _initialize_params : bool;
  (* not an attribute: the log of the calls made to optimizers and
     regularizers *)
  external_calls : list event
}.

Definition upd_net (v : Net) (m : LayerModelHelper)
  : LayerModelHelper :=
  {| model_name := model_name m; net := v; param_init_net := param_init_net m;
     params := params m; _layer_names := _layer_names m; _layers := _layers m;
     _param_to_shape := _param_to_shape m; _seed := _seed m;
     _sequence_seed := _sequence_seed m; param_to_optim := param_to_optim m;
     param_to_reg := param_to_reg m;
     _default_optimizer := _default_optimizer m; _loss := _loss m;
     _output_schema := _output_schema m; _breakdown_map := _breakdown_map m;
     _input_feature_schema := _input_feature_schema m;
     _trainer_extra_schema := _trainer_extra_schema m;
     _metrics_schema := _metrics_schema m;
     global_constants := global_constants m;
     global_constant_initializers := global_constant_initializers m;
     _initialize_params := _initialize_params m;
     external_calls := external_calls m |}.

Definition upd_param_init_net (v : Net) (m : LayerModelHelper)
  : LayerModelHelper :=
  {| model_name := model_name m; net := net m; param_init_net := v;
     params := params m; _layer_names := _layer_names m; _layers := _layers m;
     _param_to_shape := _param_to_shape m; _seed := _seed m;
     _sequence_seed := _sequence_seed m; param_to_optim := param_to_optim m;
     param_to_reg := param_to_reg m;
     _default_optimizer := _default_optimizer m; _loss := _loss m;
     _output_schema := _output_schema m; _breakdown_map := _breakdown_map m;
     _input_feature_schema := _input_feature_schema m;
     _trainer_extra_schema := _trainer_extra_schema m;
     _metrics_schema := _metrics_schema m;
     global_constants := global_constants m;
     global_constant_initializers := global_constant_initializers m;
     _initialize_params := _initialize_params m;
     external_calls := external_calls m |}.

Definition upd_params (v : list string) (m : LayerModelHelper)
  : LayerModelHelper :=
  {| model_name := model_name m; net := net m;
     param_init_net := param_init_net m; params := v;
     _layer_names := _layer_names m; _layers := _layers m;
     _param_to_shape := _param_to_shape m; _seed := _seed m;
     _sequence_seed := _sequence_seed m; param_to_optim := param_to_optim m;
     param_to_reg := param_to_reg m;
     _default_optimizer := _default_optimizer m; _loss := _loss m;
     _output_schema := _output_schema m; _breakdown_map := _breakdown_map m;
     _input_feature_schema := _input_feature_schema m;
     _trainer_extra_schema := _trainer_extra_schema m;
     _metrics_schema := _metrics_schema m;
     global_constants := global_constants m;
     global_constant_initializers := global_constant_initializers m;
     _initialize_params := _initialize_params m;
     external_calls := external_calls m |}.

Definition upd_layer_names (v : gset string) (m : LayerModelHelper)
  : LayerModelHelper :=
  {| model_name := model_name m; net := net m;
     param_init_net := param_init_net m; params := params m;
     _layer_names := v; _layers := _layers m;
     _param_to_shape := _param_to_shape m; _seed := _seed m;
     _sequence_seed := _sequence_seed m; param_to_optim := param_to_optim m;
     param_to_reg := param_to_reg m;
     _default_optimizer := _default_optimizer m; _loss := _loss m;
     _output_schema := _output_schema m; _breakdown_map := _breakdown_map m;
     _input_feature_schema := _input_feature_schema m;
     _trainer_extra_schema := _trainer_extra_schema m;
     _metrics_schema := _metrics_schema m;
     global_constants := global_constants m;
     global_constant_initializers := global_constant_initializers m;
     _initialize_params := _initialize_params m;
     external_calls := external_calls m |}.

Definition upd_layers (v : list Layer) (m : LayerModelHelper)
  : LayerModelHelper :=
  {| model_name := model_name m; net := net m;
     param_init_net := param_init_net m; params := params m;
     _layer_names := _layer_names m; _layers := v;
     _param_to_shape := _param_to_shape m; _seed := _seed m;
     _sequence_seed := _sequence_seed m; param_to_optim := param_to_optim m;
     param_to_reg := param_to_reg m;
     _default_optimizer := _default_optimizer m; _loss := _loss m;
     _output_schema := _output_schema m; _breakdown_map := _breakdown_map m;
     _input_feature_schema := _input_feature_schema m;
     _trainer_extra_schema := _trainer_extra_schema m;
     _metrics_schema := _metrics_schema m;
     global_constants := global_constants m;
     global_constant_initializers := global_constant_initializers m;
     _initialize_params := _initialize_params m;
     external_calls := external_calls m |}.

Definition upd_param_to_shape (v : gmap string (option (list Z))) (m : LayerModelHelper)
  : LayerModelHelper :=
  {| model_name := model_name m; net := net m;
     param_init_net := param_init_net m; params := params m;
     _layer_names := _layer_names m; _layers := _layers m;
     _param_to_shape := v; _seed := _seed m;
     _sequence_seed := _sequence_seed m; param_to_optim := param_to_optim m;
     param_to_reg := param_to_reg m;
     _default_optimizer := _default_optimizer m; _loss := _loss m;
     _output_schema := _output_schema m; _breakdown_map := _breakdown_map m;
     _input_feature_schema := _input_feature_schema m;
     _trainer_extra_schema := _trainer_extra_schema m;
     _metrics_schema := _metrics_schema m;
     global_constants := global_constants m;
     global_constant_initializers := global_constant_initializers m;
     _initialize_params := _initialize_params m;
     external_calls := external_calls m |}.

Definition upd_seed (v : option Z) (m : LayerModelHelper)
  : LayerModelHelper :=
  {| model_name := model_name m; net := net m;
     param_init_net := param_init_net m; params := params m;
     _layer_names := _layer_names m; _layers := _layers m;
     _param_to_shape := _param_to_shape m; _seed := v;
     _sequence_seed := _sequence_seed m; param_to_optim := param_to_optim m;
     param_to_reg := param_to_reg m;
     _default_optimizer := _default_optimizer m; _loss := _loss m;
     _output_schema := _output_schema m; _breakdown_map := _breakdown_map m;
     _input_feature_schema := _input_feature_schema m;
     _trainer_extra_schema := _trainer_extra_schema m;
     _metrics_schema := _metrics_schema m;
     global_constants := global_constants m;
     global_constant_initializers := global_constant_initializers m;
     _initialize_params := _initialize_params m;
     external_calls := external_calls m |}.

Definition upd_sequence_seed (v : bool) (m : LayerModelHelper)
  : LayerModelHelper :=
  {| model_name := model_name m; net := net m;
     param_init_net := param_init_net m; params := params m;
     _layer_names := _layer_names m; _layers := _layers m;
     _param_to_shape := _param_to_shape m; _seed := _seed m;
     _sequence_seed := v; param_to_optim := param_to_optim m;
     param_to_reg := param_to_reg m;
     _default_optimizer := _default_optimizer m; _loss := _loss m;
     _output_schema := _output_schema m; _breakdown_map := _breakdown_map m;
     _input_feature_schema := _input_feature_schema m;
     _trainer_extra_schema := _trainer_extra_schema m;
     _metrics_schema := _metrics_schema m;
     global_constants := global_constants m;
     global_constant_initializers := global_constant_initializers m;
     _initialize_params := _initialize_params m;
     external_calls := external_calls m |}.

Definition upd_param_to_optim (v : list (string * option Optimizer)) (m : LayerModelHelper)
  : LayerModelHelper :=
  {| model_name := model_name m; net := net m;
     param_init_net := param_init_net m; params := params m;
     _layer_names := _layer_names m; _layers := _layers m;
     _param_to_shape := _param_to_shape m; _seed := _seed m;
     _sequence_seed := _sequence_seed m; param_to_optim := v;
     param_to_reg := param_to_reg m;
     _default_optimizer := _default_optimizer m; _loss := _loss m;
     _output_schema := _output_schema m; _breakdown_map := _breakdown_map m;
     _input_feature_schema := _input_feature_schema m;
     _trainer_extra_schema := _trainer_extra_schema m;
     _metrics_schema := _metrics_schema m;
     global_constants := global_constants m;
     global_constant_initializers := global_constant_initializers m;
     _initialize_params := _initialize_params m;
     external_calls := external_calls m |}.

Definition upd_param_to_reg (v : list (string * option Regularizer)) (m : LayerModelHelper)
  : LayerModelHelper :=
  {| model_name := model_name m; net := net m;
     param_init_net := param_init_net m; params := params m;
     _layer_names := _layer_names m; _layers := _layers m;
     _param_to_shape := _param_to_shape m; _seed := _seed m;
     _sequence_seed := _sequence_seed m; param_to_optim := param_to_optim m;
     param_to_reg := v; _default_optimizer := _default_optimizer m;
     _loss := _loss m; _output_schema := _output_schema m;
     _breakdown_map := _breakdown_map m;
     _input_feature_schema := _input_feature_schema m;
     _trainer_extra_schema := _trainer_extra_schema m;
     _metrics_schema := _metrics_schema m;
     global_constants := global_constants m;
     global_constant_initializers := global_constant_initializers m;
     _initialize_params := _initialize_params m;
     external_calls := external_calls m |}.

Definition upd_default_optimizer (v : option Optimizer) (m : LayerModelHelper)
  : LayerModelHelper :=
  {| model_name := model_name m; net := net m;
     param_init_net := param_init_net m; params := params m;
     _layer_names := _layer_names m; _layers := _layers m;
     _param_to_shape := _param_to_shape m; _seed := _seed m;
     _sequence_seed := _sequence_seed m; param_to_optim := param_to_optim m;
     param_to_reg := param_to_reg m; _default_optimizer := v;
     _loss := _loss m; _output_schema := _output_schema m;
     _breakdown_map := _breakdown_map m;
     _input_feature_schema := _input_feature_schema m;
     _trainer_extra_schema := _trainer_extra_schema m;
     _metrics_schema := _metrics_schema m;
     global_constants := global_constants m;
     global_constant_initializers := global_constant_initializers m;
     _initialize_params := _initialize_params m;
     external_calls := external_calls m |}.

Definition upd_loss (v : option Field) (m : LayerModelHelper)
  : LayerModelHelper :=
  {| model_name := model_name m; net := net m;
     param_init_net := param_init_net m; params := params m;
     _layer_names := _layer_names m; _layers := _layers m;
     _param_to_shape := _param_to_shape m; _seed := _seed m;
     _sequence_seed := _sequence_seed m; param_to_optim := param_to_optim m;
     param_to_reg := param_to_reg m;
     _default_optimizer := _default_optimizer m; _loss := v;
     _output_schema := _output_schema m; _breakdown_map := _breakdown_map m;
     _input_feature_schema := _input_feature_schema m;
     _trainer_extra_schema := _trainer_extra_schema m;
     _metrics_schema := _metrics_schema m;
     global_constants := global_constants m;
     global_constant_initializers := global_constant_initializers m;
     _initialize_params := _initialize_params m;
     external_calls := external_calls m |}.

Definition upd_output_schema (v : option Field) (m : LayerModelHelper)
  : LayerModelHelper :=
  {| model_name := model_name m; net := net m;
     param_init_net := param_init_net m; params := params m;
     _layer_names := _layer_names m; _layers := _layers m;
     _param_to_shape := _param_to_shape m; _seed := _seed m;
     _sequence_seed := _sequence_seed m; param_to_optim := param_to_optim m;
     param_to_reg := param_to_reg m;
     _default_optimizer := _default_optimizer m; _loss := _loss m;
     _output_schema := v; _breakdown_map := _breakdown_map m;
     _input_feature_schema := _input_feature_schema m;
     _trainer_extra_schema := _trainer_extra_schema m;
     _metrics_schema := _metrics_schema m;
     global_constants := global_constants m;
     global_constant_initializers := global_constant_initializers m;
     _initialize_params := _initialize_params m;
     external_calls := external_calls m |}.

Definition upd_breakdown_map (v : option (list (pyatom * pyatom))) (m : LayerModelHelper)
  : LayerModelHelper :=
  {| model_name := model_name m; net := net m;
     param_init_net := param_init_net m; params := params m;
     _layer_names := _layer_names m; _layers := _layers m;
     _param_to_shape := _param_to_shape m; _seed := _seed m;
     _sequence_seed := _sequence_seed m; param_to_optim := param_to_optim m;
     param_to_reg := param_to_reg m;
     _default_optimizer := _default_optimizer m; _loss := _loss m;
     _output_schema := _output_schema m; _breakdown_map := v;
     _input_feature_schema := _input_feature_schema m;
     _trainer_extra_schema := _trainer_extra_schema m;
     _metrics_schema := _metrics_schema m;
     global_constants := global_constants m;
     global_constant_initializers := global_constant_initializers m;
     _initialize_params := _initialize_params m;
     external_calls := external_calls m |}.

Definition upd_trainer_extra_schema (v : Field) (m : LayerModelHelper)
  : LayerModelHelper :=
  {| model_name := model_name m; net := net m;
     param_init_net := param_init_net m; params := params m;
     _layer_names := _layer_names m; _layers := _layers m;
     _param_to_shape := _param_to_shape m; _seed := _seed m;
     _sequence_seed := _sequence_seed m; param_to_optim := param_to_optim m;
     param_to_reg := param_to_reg m;
     _default_optimizer := _default_optimizer m; _loss := _loss m;
     _output_schema := _output_schema m; _breakdown_map := _breakdown_map m;
     _input_feature_schema := _input_feature_schema m;
     _trainer_extra_schema := v; _metrics_schema := _metrics_schema m;
     global_constants := global_constants m;
     global_constant_initializers := global_constant_initializers m;
     _initialize_params := _initialize_params m;
     external_calls := external_calls m |}.

Definition upd_metrics_schema (v : list (string * Field)) (m : LayerModelHelper)
  : LayerModelHelper :=
  {| model_name := model_name m; net := net m;
     param_init_net := param_init_net m; params := params m;
     _layer_names := _layer_names m; _layers := _layers m;
     _param_to_shape := _param_to_shape m; _seed := _seed m;
     _sequence_seed := _sequence_seed m; param_to_optim := param_to_optim m;
     param_to_reg := param_to_reg m;
     _default_optimizer := _default_optimizer m; _loss := _loss m;
     _output_schema := _output_schema m; _breakdown_map := _breakdown_map m;
     _input_feature_schema := _input_feature_schema m;
     _trainer_extra_schema := _trainer_extra_schema m; _metrics_schema := v;
     global_constants := global_constants m;
     global_constant_initializers := global_constant_initializers m;
     _initialize_params := _initialize_params m;
     external_calls := external_calls m |}.

Definition upd_global_constants (v : gmap string string) (m : LayerModelHelper)
  : LayerModelHelper :=
  {| model_name := model_name m; net := net m;
     param_init_net := param_init_net m; params := params m;
     _layer_names := _layer_names m; _layers := _layers m;
     _param_to_shape := _param_to_shape m; _seed := _seed m;
     _sequence_seed := _sequence_seed m; param_to_optim := param_to_optim m;
     param_to_reg := param_to_reg m;
     _default_optimizer := _default_optimizer m; _loss := _loss m;
     _output_schema := _output_schema m; _breakdown_map := _breakdown_map m;
     _input_feature_schema := _input_feature_schema m;
     _trainer_extra_schema := _trainer_extra_schema m;
     _metrics_schema := _metrics_schema m; global_constants := v;
     global_constant_initializers := global_constant_initializers m;
     _initialize_params := _initialize_params m;
     external_calls := external_calls m |}.

Definition upd_global_constant_initializers (v : list (string * OperatorDef)) (m : LayerModelHelper)
  : LayerModelHelper :=
  {| model_name := model_name m; net := net m;
     param_init_net := param_init_net m; params := params m;
     _layer_names := _layer_names m; _layers := _layers m;
     _param_to_shape := _param_to_shape m; _seed := _seed m;
     _sequence_seed := _sequence_seed m; param_to_optim := param_to_optim m;
     param_to_reg := param_to_reg m;
     _default_optimizer := _default_optimizer m; _loss := _loss m;
     _output_schema := _output_schema m; _breakdown_map := _breakdown_map m;
     _input_feature_schema := _input_feature_schema m;
     _trainer_extra_schema := _trainer_extra_schema m;
     _metrics_schema := _metrics_schema m;
     global_constants := global_constants m;
     global_constant_initializers := v;
     _initialize_params := _initialize_params m;
     external_calls := external_calls m |}.

Definition upd_initialize_params (v : bool) (m : LayerModelHelper)
  : LayerModelHelper :=
  {| model_name := model_name m; net := net m;
     param_init_net := param_init_net m; params := params m;
     _layer_names := _layer_names m; _layers := _layers m;
     _param_to_shape := _param_to_shape m; _seed := _seed m;
     _sequence_seed := _sequence_seed m; param_to_optim := param_to_optim m;
     param_to_reg := param_to_reg m;
     _default_optimizer := _default_optimizer m; _loss := _loss m;
     _output_schema := _output_schema m; _breakdown_map := _breakdown_map m;
     _input_feature_schema := _input_feature_schema m;
     _trainer_extra_schema := _trainer_extra_schema m;
     _metrics_schema := _metrics_schema m;
     global_constants := global_constants m;
     global_constant_initializers := global_constant_initializers m;
     _initialize_params := v; external_calls := external_calls m |}.

Definition upd_external_calls (v : list event) (m : LayerModelHelper)
  : LayerModelHelper :=
  {| model_name := model_name m; net := net m;
     param_init_net := param_init_net m; params := params m;
     _layer_names := _layer_names m; _layers := _layers m;
     _param_to_shape := _param_to_shape m; _seed := _seed m;
     _sequence_seed := _sequence_seed m; param_to_optim := param_to_optim m;
     param_to_reg := param_to_reg m;
     _default_optimizer := _default_optimizer m; _loss := _loss m;
     _output_schema := _output_schema m; _breakdown_map := _breakdown_map m;
     _input_feature_schema := _input_feature_schema m;
     _trainer_extra_schema := _trainer_extra_schema m;
     _metrics_schema := _metrics_schema m;
     global_constants := global_constants m;
     global_constant_initializers := global_constant_initializers m;
     _initialize_params := _initialize_params m; external_calls := v |}.

(** ** The methods of the class *)

(** [a or b] on values that are [None] or an object. *)
Definition py_or {A} (a b : option A) : option A :=
  match a with
  | Some x => Some x
  | None => b
  end.

(** The first argument of [create_param]. *)
Inductive name_arg :=
| NameBlob (blob : string)      (* a core.BlobReference *)
| NameStr (s : string)
| NameOther.

Definition is_string (a : pyatom) : bool :=
  match a with PyStr _ => true | _ => false end.

Definition is_int (a : pyatom) : bool :=
  match a with PyInt _ => true | _ => false end.

(** Order of Python 2 on mixed values: [None], then numbers, then strings. *)
Definition pyatom_leb (a b : pyatom) : bool :=
  match a, b with
  | PyNone, _ => true
  | PyInt _, PyNone => false
  | PyInt x, PyInt y => bool_decide (x ≤ y)%Z
  | PyInt _, PyStr _ => true
  | PyStr s, PyStr t => String.leb s t
  | PyStr _, _ => false
  end.

Definition pyatom_le : relation pyatom := λ a b, pyatom_leb a b = true.

#[global] Instance pyatom_le_dec : RelDecision pyatom_le.
Proof. intros a b. unfold pyatom_le. apply _. Defined.

(** [sorted(values)].  Python 3 refuses to order [None] or values of
    different types: a list of two or more values is sorted only when all
    are integers or all are strings. *)
Definition sorted (py : python) (l : list pyatom) : outcome (list pyatom) :=
  match py with
  | Py2 => Returned (merge_sort pyatom_le l)
  | Py3 =>
      if (length l <=? 1)%nat || forallb is_int l || forallb is_string l
      then Returned (merge_sort pyatom_le l)
      else Raised TypeError
  end.

Definition range (n : nat) : list pyatom := (PyInt ∘ Z.of_nat) <$> seq 0 n.

(** [l == range(n)] for a list [l]: in Python 2 [range] returns a list; in
    Python 3 it returns a range object, and a list never equals one. *)
Definition list_eq_range (py : python) (l : list pyatom) (n : nat) : bool :=
  match py with
  | Py2 => bool_decide (l = range n)
  | Py3 => false
  end.

Definition op_equal (operator1 operator2 : OperatorDef) : bool :=
  let clear o :=
    {| op_type := op_type o; op_input := op_input o;
       op_output := op_output o; op_arg := op_arg o;
       device_option := device_option o; debug_info := "" |} in
  bool_decide (clear operator1 = clear operator2).

Section methods.
Context `{Framework}.

#[local] Abbreviation state := LayerModelHelper.

Definition clear_output_schema : M state unit :=
  modify (upd_output_schema None).

Definition set_initialize_params (initialize_params : bool) : M state unit :=
  modify (upd_initialize_params initialize_params).

Definition add_metric_field (name : string) (value : Field) : M state unit :=
  fields ← gets _metrics_schema;
  py_assert (negb (odict_mem name fields));;
  sum ← lift_outcome (struct_add_fields fields [(name, value)]);
  modify (upd_metrics_schema sum).

Definition _get_global_constant_initializer_op (ctx : ambient) (blob_name : string)
    (array : option array_like) (dtype : option string)
    (init : option (ambient → string → outcome OperatorDef)) : outcome OperatorDef :=
  match array with
  | Some a =>
      match init with
      | Some _ => Raised AssertionError
      | None =>
          match np_array a dtype with
          | Raised e => Raised e
          | Returned array =>
              let op_name :=
                if decide (nd_dtype array = np_int32)
                then "GivenTensorIntFill"
                else if decide (nd_dtype array = np_int64)
                     then "GivenTensorInt64Fill"
                else if decide (nd_dtype array = np_str)
                     then "GivenTensorStringFill"
                else if decide (nd_dtype array = np_bool)
                     then "GivenTensorBoolFill"
                else "GivenTensorFill" in
              CreateOperator ctx op_name [] [blob_name]
                [("shape", ArgInts (nd_shape array));
                 ("values", ArgScalars (nd_flat array))]
          end
      end
  | None =>
      match init with
      | None => Raised AssertionError
      | Some f => f ctx blob_name
      end
  end.

Definition add_global_constant (ctx : ambient) (name : pyatom)
    (array : option array_like) (dtype : option string)
    (init : option (ambient → string → outcome OperatorDef)) : M state string :=
  match name with
  | PyStr name =>
      constants ← gets global_constants;
      py_assert (bool_decide (constants !! name = None));;
      n ← gets net;
      let blob_name := (NextBlob n name).1 in
      modify (upd_net (NextBlob n name).2);;
      modify (λ m, upd_global_constants
                     (<[name := blob_name]> (global_constants m)) m);;
      initializer_op ← lift_outcome
        (_get_global_constant_initializer_op ctx blob_name array dtype init);
      initializers ← gets global_constant_initializers;
      py_assert (negb (odict_mem blob_name initializers));;
      modify (λ m, upd_global_constant_initializers
                     (odict_set blob_name initializer_op
                        (global_constant_initializers m)) m);;
      mret blob_name
  | _ => raise AssertionError
  end.

Definition maybe_add_global_constant (ctx : ambient) (name : pyatom)
    (array : option array_like) (dtype : option string)
    (init : option (ambient → string → outcome OperatorDef)) : M state string :=
  constants ← gets global_constants;
  match name with
  | PyStr key =>
      match constants !! key with
      | Some blob_name =>
          initializer_op ← lift_outcome
            (_get_global_constant_initializer_op ctx blob_name array dtype
               init);
          initializers ← gets global_constant_initializers;
          match odict_get blob_name initializers with
          | Some stored =>
              py_assert (op_equal initializer_op stored);;
              mret blob_name
          | None => raise KeyError
          end
      | None => add_global_constant ctx name array dtype init
      end
  | _ => add_global_constant ctx name array dtype init
  end.

Definition _init_global_constants (ctx : ambient) : M state unit :=
  modify (upd_global_constants ∅);;
  modify (upd_global_constant_initializers []);;
  add_global_constant ctx (PyStr "ONE") (Some (AScalar (SFloat 1))) None None;;
  add_global_constant ctx (PyStr "ZERO") (Some (AScalar (SFloat 0))) None None;;
  add_global_constant ctx (PyStr "ZERO_RANGE")
    (Some (AList [SInt 0; SInt 0])) (Some "int32") None;;
  mret ().

Definition _add_global_constants (init_net : Net) : M state Net :=
  initializers ← gets global_constant_initializers;
  mret (foldl (λ n initializer_op, net_extend [initializer_op] n)
          init_net (viewvalues initializers)).

Definition create_init_net (name : string) : M state Net :=
  _add_global_constants (new_Net name).

Definition _validate_param_shape (param_name : string)
    (shape : option (list Z)) : M state unit :=
  shapes ← gets _param_to_shape;
  match shapes !! param_name with
  | None => mret ()
  | Some ref_shape =>
      if decide (shape = ref_shape) then mret () else raise ValueError
  end.

Definition create_param (ctx : ambient) (param_name : name_arg)
    (shape : option (list Z))
    (init : string * list (list (string * argval)))
    (opt : option Optimizer) (ps : option string)
    (reg : option Regularizer) : M state ParamObject :=
  param_name ← match param_name with
               | NameBlob blob => mret blob
               | NameStr s => mret (get_parameter_name s)
               | NameOther => raise TypeError  (* raise "a string" *)
               end;
  init_op_args ← match init.2 with
                 | [] => mret []                     (* len(initializer) == 1 *)
                 | [args] => mret args               (* len(initializer) == 2 *)
                 | _ => raise AssertionError
                 end;
  init_op_args ← match shape with
                 | Some sh =>
                     py_assert (negb (odict_mem "shape" init_op_args));;
                     mret (odict_set "shape" (ArgInts sh) init_op_args)
                 | None => mret init_op_args
                 end;
  initialize ← gets _initialize_params;
  initializer_op ←
    (if initialize : bool
     then op ← lift_outcome
            (CreateOperator ctx init.1 [] [param_name] init_op_args);
          mret (Some op)
     else mret None);
  let param :=
    {| class_of := LayerParameter; parameter := BlobReference param_name;
       initializer := initializer_op; optimizer := opt; ps_param := ps;
       regularizer := reg |} in
  _validate_param_shape param_name shape;;
  modify (λ m, upd_param_to_shape
                 (<[param_name := shape]> (_param_to_shape m)) m);;
  mret param.

Definition next_layer_name (prefix : string) : M state string :=
  let base_name := ScopedName prefix in
  names ← gets _layer_names;
  match auto_name_loop (size names) (λ n, bool_decide (n ∈ names))
          base_name base_name 0 with
  | Some name =>
      modify (λ m, upd_layer_names ({[name]} ∪ _layer_names m) m);;
      mret name
  | None => raise OutOfFuel
  end.

(** The loop over [layer.get_parameters()] in [add_layer]. *)
Fixpoint add_layer_parameters (ps : list ParamObject) : M state unit :=
  match ps with
  | [] => mret ()
  | param :: ps' =>
      match parameter param with
      | NotBlobReference => raise AssertionError
      | BlobReference blob =>
          default_optimizer ← gets _default_optimizer;
          modify (λ m, upd_param_to_optim
                         (odict_set blob
                            (py_or (optimizer param) default_optimizer)
                            (param_to_optim m)) m);;
          modify (λ m, upd_params (params m ++ [blob]) m);;
          match class_of param with
          | LayerParameter =>
              modify (λ m, upd_param_to_reg
                             (odict_set blob (regularizer param)
                                (param_to_reg m)) m)
          | ParameterInfo => mret ()      (* logger.info(...) *)
          | OtherParameter => raise ValueError
          end;;
          add_layer_parameters ps'
      end
  end.

Definition add_layer (layer : Layer) : M state Field :=
  modify (λ m, upd_layers (_layers m ++ [layer]) m);;
  add_layer_parameters (get_parameters layer);;
  n ← gets net;
  init_net ← gets param_init_net;
  let r := add_operators layer n init_net in
  modify (upd_net r.2.1);;
  modify (upd_param_init_net r.2.2);;
  lift_outcome r.1;;
  mret (layer_output_schema layer).

Definition get_parameter_blobs : M state (list blob_or_other) :=
  ls ← gets _layers;
  mret (concat ((λ layer, parameter <$> get_parameters layer) <$> ls)).

Definition seed : M state (option Z) := gets _seed.

Definition store_seed (seed : option Z) (sequence_seed : bool)
  : M state unit :=
  modify (upd_seed seed);;
  modify (upd_sequence_seed sequence_seed).

(** [apply_seed(net)]: the arguments of the call to [net.set_rand_seed], if
    the seed is set and not zero. *)
Definition apply_seed : M state (option (Z * bool)) :=
  s ← gets _seed;
  sequence_seed ← gets _sequence_seed;
  mret (match s with
        | Some z => if decide (z = 0%Z) then None else Some (z, sequence_seed)
        | None => None
        end).

Definition default_optimizer : M state (option Optimizer) :=
  gets _default_optimizer.

Definition default_optimizer_setter (opt : option Optimizer)
  : M state unit :=
  modify (upd_default_optimizer opt).

Definition input_feature_schema : M state Field :=
  gets _input_feature_schema.

Definition trainer_extra_schema : M state Field :=
  gets _trainer_extra_schema.

Definition metrics_schema : M state Field :=
  fields ← gets _metrics_schema; mret (Struct fields).

Definition output_schema : M state Field :=
  v ← gets _output_schema;
  match v with
  | Some schema => mret schema
  | None => raise AssertionError
  end.

Definition output_schema_setter (schema : option Field) : M state unit :=
  v ← gets _output_schema;
  py_assert (bool_decide (¬ is_Some v));;
  modify (upd_output_schema schema).

Definition loss : M state Field :=
  v ← gets _loss;
  match v with
  | Some l => mret l
  | None => raise AssertionError
  end.

Definition loss_setter (loss : option Field) : M state unit :=
  v ← gets _loss;
  py_assert (bool_decide (¬ is_Some v));;
  modify (upd_loss loss).

Definition has_loss : M state bool :=
  v ← gets _loss; mret (bool_decide (is_Some v)).

Definition add_loss (loss : option Field) (name : string) : M state unit :=
  match loss with
  | None => raise AssertionError
  | Some (ListOf _) => raise AssertionError
  | Some l =>
      current ← gets _loss;
      match current with
      | None => modify (upd_loss (Some (Struct [(name, l)])))
      | Some (Struct fields) =>
          (* while prefix in self._loss *)
          match auto_name_loop (length fields) (λ p, odict_mem p fields)
                  name name 0 with
          | Some prefix =>
              sum ← lift_outcome
                (struct_add (Struct fields) (Struct [(prefix, l)]));
              modify (upd_loss (Some sum))
          | None => raise OutOfFuel
          end
      | Some _ => raise TypeError     (* [in] on a field without names *)
      end
  end.

Definition add_trainer_extra_schema (trainer_extra_schema : Field)
  : M state unit :=
  n ← gets net;
  let r := NewRecord n trainer_extra_schema in
  modify (upd_net r.2);;
  current ← gets _trainer_extra_schema;
  sum ← lift_outcome (struct_add current r.1);
  modify (upd_trainer_extra_schema sum).

Definition layers : M state (list Layer) := gets _layers.

(** The loop of [apply_regularizers_on_loss] over
    [viewitems(self.param_to_reg)]. *)
Fixpoint regularizers_on_loss_loop
    (items : list (string * option Regularizer)) : M state unit :=
  match items with
  | [] => mret ()
  | (param, reg) :: rest =>
      match reg with
      | None => regularizers_on_loss_loop rest
      | Some r =>
          if apply_after_optimizer r then regularizers_on_loss_loop rest
          else
            py_assert (is_Regularizer r);;
            log ← gets external_calls;
            let added_loss_blob := regularizer_result r log param in
            modify (upd_external_calls
                      (log ++ [CallRegularizer (regularizer_name r) param
                                 None]));;
            add_loss (Some (Scalar (Some added_loss_blob))) added_loss_blob;;
            regularizers_on_loss_loop rest
      end
  end.

Definition apply_regularizers_on_loss : M state unit :=
  tracked ← gets param_to_reg;
  regularizers_on_loss_loop (viewitems tracked).

Fixpoint regularizers_after_optimizer_loop (grad_map : gmap string string)
    (items : list (string * option Regularizer)) : M state unit :=
  match items with
  | [] => mret ()
  | (param, reg) :: rest =>
      match reg with
      | None => regularizers_after_optimizer_loop grad_map rest
      | Some r =>
          if negb (apply_after_optimizer r)
          then regularizers_after_optimizer_loop grad_map rest
          else
            py_assert (is_Regularizer r);;
            modify (λ m, upd_external_calls
                           (external_calls m
                              ++ [CallRegularizer (regularizer_name r) param
                                    (grad_map !! param)]) m);;
            regularizers_after_optimizer_loop grad_map rest
      end
  end.

Definition apply_regularizers_after_optimizer
    (grad_map : gmap string string) : M state unit :=
  tracked ← gets param_to_reg;
  regularizers_after_optimizer_loop grad_map (viewitems tracked).

Fixpoint optimizers_loop (grad_map blob_to_device : gmap string string)
    (items : list (string * option Optimizer)) : M state unit :=
  match items with
  | [] => mret ()
  | (param, opt) :: rest =>
      match opt with
      | None => raise AssertionError
      | Some o =>
          let device :=
            get_param_device param (grad_map !! param) blob_to_device
              "CPU" in
          modify (λ m, upd_external_calls
                         (external_calls m
                            ++ [CallOptimizer (optimizer_name o) param
                                  (grad_map !! param) device]) m);;
          optimizers_loop grad_map blob_to_device rest
      end
  end.

Definition apply_optimizers (grad_map : gmap string string)
    (blob_to_device : option (gmap string string)) : M state unit :=
  let blob_to_device := default ∅ blob_to_device in
  tracked ← gets param_to_optim;
  optimizers_loop grad_map blob_to_device (viewitems tracked).

Definition _GetOne : M state string :=
  constants ← gets global_constants;
  match constants !! "ONE" with
  | Some blob => mret blob
  | None => raise KeyError
  end.

(** An optimizer which allows us to do NO optimization. *)
Definition NoOptim : M state unit := mret ().

Definition breakdown_map : M state (option (list (pyatom * pyatom))) :=
  gets _breakdown_map.

Definition breakdown_map_setter (breakdown_map : pyvalue) : M state unit :=
  match breakdown_map with
  | PyAtom _ => raise AssertionError
  | PyDict items =>
      py_assert (forallb is_string items.*1);;
      values ← lift_outcome (sorted python_version items.*2);
      py_assert (list_eq_range python_version values (length items));;
      modify (upd_breakdown_map (Some items))
  end.

(** [LayerModelHelper(name, input_feature_schema, trainer_extra_schema,
    keep_blobs)]: the attributes as the constructor leaves them, or the
    exception it raises. *)
Definition __init__ (ctx : ambient) (name : string)
    (input_feature_schema trainer_extra_schema : Field)
    (keep_blobs : bool) : outcome unit * LayerModelHelper :=
  let net0 := new_Net name in
  let r1 := if keep_blobs then (input_feature_schema, net0)
            else NewRecord net0 input_feature_schema in
  let r2 := if keep_blobs then (trainer_extra_schema, r1.2)
            else NewRecord r1.2 trainer_extra_schema in
  let self :=
    {| model_name := name; net := r2.2;
       param_init_net := new_Net (name +:+ "_init"); params := [];
       _layer_names := ∅; _layers := []; _param_to_shape := ∅;
       _seed := None; _sequence_seed := true;
       param_to_optim := []; param_to_reg := [];
       _default_optimizer := None; _loss := None; _output_schema := None;
       _breakdown_map := None;
       _input_feature_schema := r1.1; _trainer_extra_schema := r2.1;
       _metrics_schema := [];
       global_constants := ∅; global_constant_initializers := [];
       _initialize_params := true; external_calls := [] |} in
  (_init_global_constants ctx;;
   init_net ← create_init_net "param_init_net";
   modify (upd_param_init_net init_net);;
   modify (upd_initialize_params true)) self.
End methods.

(** ** Clients

    A client of the object (a layer under construction, a trainer) acts on
    it through the public methods and properties.  The wrappers returned by
    [__getattr__] have no state of their own: they run the constructor of a
    registered layer, which calls back into the methods below, and finish
    with [add_layer].  A client may catch an exception and go on. *)

Inductive call :=
| call_clear_output_schema
| call_set_initialize_params (initialize_params : bool)
| call_add_metric_field (name : string) (value : Field)
| call_add_global_constant (ctx : ambient) (name : pyatom)
    (array : option array_like) (dtype : option string)
    (init : option (ambient → string → outcome OperatorDef))
| call_maybe_add_global_constant (ctx : ambient) (name : pyatom)
    (array : option array_like) (dtype : option string)
    (init : option (ambient → string → outcome OperatorDef))
| call_create_init_net (name : string)
| call_create_param (ctx : ambient) (param_name : name_arg)
    (shape : option (list Z)) (init : string * list (list (string * argval)))
    (opt : option Optimizer) (ps : option string) (reg : option Regularizer)
| call_next_layer_name (prefix : string)
| call_add_layer (layer : Layer)
| call_get_parameter_blobs
| call_seed
| call_store_seed (seed : option Z) (sequence_seed : bool)
| call_default_optimizer
| call_default_optimizer_setter (opt : option Optimizer)
| call_input_feature_schema
| call_trainer_extra_schema
| call_metrics_schema
| call_output_schema
| call_output_schema_setter (schema : option Field)
| call_loss
| call_loss_setter (loss : option Field)
| call_has_loss
| call_add_loss (loss : option Field) (name : string)
| call_add_trainer_extra_schema (trainer_extra_schema : Field)
| call_layers
| call_apply_regularizers_on_loss
| call_apply_regularizers_after_optimizer (grad_map : gmap string string)
| call_apply_optimizers (grad_map : gmap string string)
    (blob_to_device : option (gmap string string))
| call_GetOne
| call_breakdown_map
| call_breakdown_map_setter (breakdown_map : pyvalue)
| call_apply_seed
| call_NoOptim.

Definition void {S A} (m : M S A) : M S unit := m ≫= λ _, mret ().

Section clients.
Context `{Framework}.

Definition exec (c : call) : M LayerModelHelper unit :=
  match c with
  | call_clear_output_schema => clear_output_schema
  | call_set_initialize_params b => set_initialize_params b
  | call_add_metric_field name value => add_metric_field name value
  | call_add_global_constant ctx name array dtype init =>
      void (add_global_constant ctx name array dtype init)
  | call_maybe_add_global_constant ctx name array dtype init =>
      void (maybe_add_global_constant ctx name array dtype init)
  | call_create_init_net name => void (create_init_net name)
  | call_create_param ctx param_name shape init opt ps reg =>
      void (create_param ctx param_name shape init opt ps reg)
  | call_next_layer_name prefix => void (next_layer_name prefix)
  | call_add_layer layer => void (add_layer layer)
  | call_get_parameter_blobs => void get_parameter_blobs
  | call_seed => void seed
  | call_store_seed s q => store_seed s q
  | call_default_optimizer => void default_optimizer
  | call_default_optimizer_setter opt => default_optimizer_setter opt
  | call_input_feature_schema => void input_feature_schema
  | call_trainer_extra_schema => void trainer_extra_schema
  | call_metrics_schema => void metrics_schema
  | call_output_schema => void output_schema
  | call_output_schema_setter schema => output_schema_setter schema
  | call_loss => void loss
  | call_loss_setter l => loss_setter l
  | call_has_loss => void has_loss
  | call_add_loss l name => add_loss l name
  | call_add_trainer_extra_schema s => add_trainer_extra_schema s
  | call_layers => void layers
  | call_apply_regularizers_on_loss => apply_regularizers_on_loss
  | call_apply_regularizers_after_optimizer grad_map =>
      apply_regularizers_after_optimizer grad_map
  | call_apply_optimizers grad_map blob_to_device =>
      apply_optimizers grad_map blob_to_device
  | call_GetOne => void _GetOne
  | call_breakdown_map => void breakdown_map
  | call_breakdown_map_setter v => breakdown_map_setter v
  | call_apply_seed => void apply_seed
  | call_NoOptim => NoOptim
  end.

(** The object after a client has made the calls [cs] in order. *)
Definition run (cs : list call) (m : LayerModelHelper) : LayerModelHelper :=
  foldl (λ m c, (exec c m).2) m cs.
End clients.

(** * Reasoning about methods *)

(** A method preserves a preorder [R] on objects when the object it leaves
    is [R]-above the one it found, whether it returns or raises. *)
Section preserves.
Context {S : Type} (R : relation S) `{!PreOrder R}.

Definition preserves {A} (m : M S A) : Prop := ∀ s, R s (m s).2.

Lemma preserves_ret {A} (a : A) : preserves (mret a).
Proof. intros s. reflexivity. Qed.

Lemma preserves_raise {A} e : preserves (raise (A:=A) e).
Proof. intros s. reflexivity. Qed.

Lemma preserves_gets {A} (f : S → A) : preserves (gets f).
Proof. intros s. reflexivity. Qed.

Lemma preserves_lift {A} (o : outcome A) : preserves (lift_outcome o).
Proof. intros s. reflexivity. Qed.

Lemma preserves_assert b : preserves (py_assert b).
Proof. intros s. destruct b; reflexivity. Qed.

Lemma preserves_modify (f : S → S) :
  (∀ s, R s (f s)) → preserves (modify f).
Proof. intros Hf s. apply Hf. Qed.

Lemma preserves_bind {A B} (m : M S A) (k : A → M S B) :
  preserves m → (∀ a, preserves (k a)) → preserves (m ≫= k).
Proof.
  intros Hm Hk s. unfold mbind, M_bind.
  specialize (Hm s). destruct (m s) as [[a|e] s']; simpl in *.
  - etrans; [exact Hm | apply Hk].
  - exact Hm.
Qed.

Lemma preserves_void {A} (m : M S A) : preserves m → preserves (void m).
Proof. intros Hm. apply preserves_bind; [done | intros; apply preserves_ret]. Qed.
End preserves.

(** Decompose a method into its primitive steps. *)
Ltac preserves_step :=
  lazymatch goal with
  | |- preserves _ (mret _) => refine (preserves_ret _ _)
  | |- preserves _ (raise _) => refine (preserves_raise _ _)
  | |- preserves _ (gets _) => refine (preserves_gets _ _)
  | |- preserves _ (lift_outcome _) => refine (preserves_lift _ _)
  | |- preserves _ (py_assert _) => refine (preserves_assert _ _)
  | |- preserves _ (void _) => refine (preserves_void _ _ _)
  | |- preserves _ (_ ≫= _) => refine (preserves_bind _ _ _ _ _); [| intros ?]
  | |- preserves _ (modify _) => refine (preserves_modify _ _ _); intros ?
  | |- preserves _ (match ?x with _ => _ end) => destruct x
  | |- preserves _ (if ?x then _ else _) => destruct x
  | |- preserves _ (let _ := _ in _) => cbv zeta
  end.

Ltac preserves_auto := repeat preserves_step.

(** Run a method on an object. *)
Ltac run_monad :=
  repeat progress
    (unfold void, mbind, M_bind, mret, M_ret, gets, modify, raise, py_assert,
       lift_outcome; simpl).

Section frames.
Context `{Framework} (R : relation LayerModelHelper) `{!PreOrder R}.

Lemma add_loss_preserves l name :
  (∀ v s, R s (upd_loss (Some v) s)) → preserves R (add_loss l name).
Proof. intros Hl. unfold add_loss. preserves_auto; apply Hl. Qed.

Lemma regularizers_on_loss_loop_preserves items :
  (∀ l name, preserves R (add_loss l name)) →
  (∀ v s, R s (upd_external_calls v s)) →
  preserves R (regularizers_on_loss_loop items).
Proof.
  intros Hl Hc.
  induction items as [|[param [r|]] rest IH];
    cbn [regularizers_on_loss_loop].
  - preserves_auto.
  - destruct (apply_after_optimizer r); [exact IH|].
    preserves_auto; auto.
  - exact IH.
Qed.

Lemma apply_regularizers_on_loss_preserves :
  (∀ l name, preserves R (add_loss l name)) →
  (∀ v s, R s (upd_external_calls v s)) →
  preserves R apply_regularizers_on_loss.
Proof.
  intros Hl Hc. unfold apply_regularizers_on_loss. preserves_auto.
  by apply regularizers_on_loss_loop_preserves.
Qed.

Lemma regularizers_after_optimizer_loop_preserves grad_map items :
  (∀ v s, R s (upd_external_calls v s)) →
  preserves R (regularizers_after_optimizer_loop grad_map items).
Proof.
  intros Hc. induction items as [|[param [r|]] rest IH]; simpl.
  - preserves_auto.
  - destruct (apply_after_optimizer r); simpl; [|exact IH].
    preserves_auto; auto.
  - exact IH.
Qed.

Lemma optimizers_loop_preserves grad_map blob_to_device items :
  (∀ v s, R s (upd_external_calls v s)) →
  preserves R (optimizers_loop grad_map blob_to_device items).
Proof.
  intros Hc. induction items as [|[param [o|]] rest IH]; simpl;
    preserves_auto; auto.
Qed.

Lemma add_layer_parameters_preserves ps :
  (∀ v s, R s (upd_param_to_optim v s)) →
  (∀ v s, R s (upd_params v s)) →
  (∀ v s, R s (upd_param_to_reg v s)) →
  preserves R (add_layer_parameters ps).
Proof.
  intros Ho Hp Hr. induction ps as [|param ps IH]; simpl;
    preserves_auto; auto.
Qed.
End frames.

(** A relation between objects that does not look at the attributes below
    is preserved by most calls; the calls in [guarded_call] write attributes
    on which the invariants of this development depend and are treated one
    by one. *)
Class Insensitive (R : relation LayerModelHelper) := {
  insensitive_net v s : R s (upd_net v s);
  insensitive_param_init_net v s : R s (upd_param_init_net v s);
  insensitive_params v s : R s (upd_params v s);
  insensitive_layers v s : R s (upd_layers v s);
  insensitive_param_to_shape v s : R s (upd_param_to_shape v s);
  insensitive_seed v s : R s (upd_seed v s);
  insensitive_sequence_seed v s : R s (upd_sequence_seed v s);
  insensitive_param_to_optim v s : R s (upd_param_to_optim v s);
  insensitive_param_to_reg v s : R s (upd_param_to_reg v s);
  insensitive_default_optimizer v s : R s (upd_default_optimizer v s);
  insensitive_output_schema v s : R s (upd_output_schema v s);
  insensitive_breakdown_map v s : R s (upd_breakdown_map v s);
  insensitive_trainer_extra_schema v s : R s (upd_trainer_extra_schema v s);
  insensitive_initialize_params v s : R s (upd_initialize_params v s);
  insensitive_external_calls v s : R s (upd_external_calls v s)
}.

Definition guarded_call (c : call) : Prop :=
  match c with
  | call_add_metric_field _ _
  | call_add_global_constant _ _ _ _ _
  | call_maybe_add_global_constant _ _ _ _ _
  | call_next_layer_name _
  | call_loss_setter _
  | call_add_loss _ _
  | call_apply_regularizers_on_loss => True
  | _ => False
  end.

Section exec_preserves.
Context `{Framework} (R : relation LayerModelHelper).
Context `{!PreOrder R, !Insensitive R}.

Lemma exec_preserves c :
  (guarded_call c → preserves R (exec c)) → preserves R (exec c).
Proof using Type*.
  intros Hg. destruct c; try (apply Hg; exact I); clear Hg; simpl.
  - unfold clear_output_schema. preserves_auto. apply insensitive_output_schema.
  - unfold set_initialize_params. preserves_auto.
    apply insensitive_initialize_params.
  - unfold create_init_net, _add_global_constants. preserves_auto.
  - unfold create_param, _validate_param_shape. preserves_auto;
      apply insensitive_param_to_shape.
  - unfold add_layer. preserves_auto;
      first [ apply insensitive_layers | apply insensitive_net
            | apply insensitive_param_init_net | idtac ].
    apply add_layer_parameters_preserves; try done;
      [apply insensitive_param_to_optim | apply insensitive_params
      | apply insensitive_param_to_reg].
  - unfold get_parameter_blobs. preserves_auto.
  - unfold seed. preserves_auto.
  - unfold store_seed. preserves_auto;
      [apply insensitive_seed | apply insensitive_sequence_seed].
  - unfold default_optimizer. preserves_auto.
  - unfold default_optimizer_setter. preserves_auto.
    apply insensitive_default_optimizer.
  - unfold input_feature_schema. preserves_auto.
  - unfold trainer_extra_schema. preserves_auto.
  - unfold metrics_schema. preserves_auto.
  - unfold output_schema. preserves_auto.
  - unfold output_schema_setter. preserves_auto.
    apply insensitive_output_schema.
  - unfold loss. preserves_auto.
  - unfold has_loss. preserves_auto.
  - unfold add_trainer_extra_schema. preserves_auto;
      [apply insensitive_net | apply insensitive_trainer_extra_schema].
  - unfold layers. preserves_auto.
  - unfold apply_regularizers_after_optimizer. preserves_auto.
    apply regularizers_after_optimizer_loop_preserves; try done.
    apply insensitive_external_calls.
  - unfold apply_optimizers. preserves_auto.
    apply optimizers_loop_preserves; try done.
    apply insensitive_external_calls.
  - unfold _GetOne. preserves_auto.
  - unfold breakdown_map. preserves_auto.
  - unfold breakdown_map_setter. preserves_auto.
    apply insensitive_breakdown_map.
  - unfold apply_seed. preserves_auto.
  - unfold NoOptim. preserves_auto.
Qed.

(** An invariant of single calls is an invariant of clients. *)
Lemma run_preserves cs s :
  (∀ c, preserves R (exec c)) → R s (run cs s).
Proof.
  intros Hc. revert s. induction cs as [|c cs IH]; intros s; simpl.
  - reflexivity.
  - etrans; [apply (Hc c s) | apply IH].
Qed.
End exec_preserves.

(** * The renaming loop terminates and returns the first free candidate *)

Lemma candidate_inj base_name : Inj (=) (=) (candidate base_name).
Proof.
  assert (Hne : ∀ i, base_name ≠ auto_name base_name i).
  { intros i Heq. unfold auto_name in Heq.
    assert (base_name +:+ "" = base_name) as Hnil.
    { clear. induction base_name as [|a b IH]; [reflexivity|].
      change (String a (b +:+ "") = String a b). by rewrite IH. }
    assert (base_name +:+ "" = base_name +:+ "_auto_" +:+ pretty i) as Heq'.
    { rewrite Hnil. exact Heq. }
    apply (inj (String.append base_name)) in Heq'. discriminate. }
  intros [|i] [|j] Heq; simpl in Heq.
  - reflexivity.
  - destruct (Hne _ Heq).
  - destruct (Hne _ (eq_sym Heq)).
  - unfold auto_name in Heq.
    apply (inj (String.append base_name)) in Heq.
    apply (inj (String.append "_auto_")) in Heq.
    apply (inj pretty) in Heq. congruence.
Qed.

Lemma auto_name_loop_spec (fuel : nat) taken base_name (k : nat)
    (l : list string) :
  (∀ j : nat, (k ≤ j)%nat → taken (candidate base_name j) = true →
        candidate base_name j ∈ l) →
  (length l ≤ fuel)%nat →
  ∃ i : nat, (k ≤ i)%nat
       ∧ auto_name_loop fuel taken base_name (candidate base_name k) k
         = Some (candidate base_name i)
       ∧ taken (candidate base_name i) = false
       ∧ ∀ j : nat, (k ≤ j < i)%nat → taken (candidate base_name j) = true.
Proof.
  revert k l. induction fuel as [|fuel IH]; intros k l Hl Hlen.
  - exists k. destruct (taken (candidate base_name k)) eqn:Hk.
    + apply Hl in Hk; [|lia]. destruct l; [inversion Hk | simpl in Hlen; lia].
    + simpl. rewrite Hk. repeat split; [lia | intros; lia].
  - destruct (taken (candidate base_name k)) eqn:Hk.
    + destruct (IH (S k) (filter (λ x, x ≠ candidate base_name k) l))
        as (i & Hi & Hrun & Hfree & Hbelow).
      * intros j Hj Htaken. apply list_elem_of_filter. split.
        -- intros Heq. apply candidate_inj in Heq. lia.
        -- apply Hl; [lia | done].
      * pose proof (length_filter_lt (λ x, x ≠ candidate base_name k) l
                      (candidate base_name k)) as Hlt.
        assert (length (filter (λ x, x ≠ candidate base_name k) l)
                < length l)%nat; [|lia].
        apply Hlt; [apply Hl; [lia | done] | tauto].
      * exists i. simpl. rewrite Hk. repeat split; [lia | done | done |].
        intros j Hj. destruct (decide (j = k)) as [->|]; [done|].
        apply Hbelow. lia.
    + exists k. simpl. rewrite Hk. repeat split; [lia | intros; lia].
Qed.

(** With as much fuel as there are taken names the loop never runs out. *)
Lemma auto_name_loop_total taken base_name (l : list string) :
  (∀ x, taken x = true → x ∈ l) →
  ∃ i : nat, auto_name_loop (length l) taken base_name base_name 0
       = Some (candidate base_name i)
       ∧ taken (candidate base_name i) = false
       ∧ ∀ j : nat, (j < i)%nat → taken (candidate base_name j) = true.
Proof.
  intros Hl.
  destruct (auto_name_loop_spec (length l) taken base_name 0 l)
    as (i & _ & Hrun & Hfree & Hbelow); [auto | lia |].
  exists i. repeat split; [done | done |]. intros j Hj. apply Hbelow. lia.
Qed.

Lemma auto_name_loop_set (names : gset string) base_name :
  ∃ i : nat, auto_name_loop (size names) (λ n, bool_decide (n ∈ names))
         base_name base_name 0 = Some (candidate base_name i)
       ∧ (candidate base_name i ∉ names)
       ∧ ∀ j : nat, (j < i)%nat → candidate base_name j ∈ names.
Proof.
  destruct (auto_name_loop_total (λ n, bool_decide (n ∈ names)) base_name
              (elements names)) as (i & Hrun & Hfree & Hbelow).
  { intros x Hx. apply bool_decide_eq_true in Hx. by apply elem_of_elements. }
  exists i. repeat split.
  - exact Hrun.
  - by apply bool_decide_eq_false in Hfree.
  - intros j Hj. specialize (Hbelow j Hj). by apply bool_decide_eq_true in Hbelow.
Qed.

Lemma auto_name_loop_fields {V} (fields : list (string * V)) base_name :
  ∃ i : nat, auto_name_loop (length fields) (λ p, odict_mem p fields)
         base_name base_name 0 = Some (candidate base_name i)
       ∧ (candidate base_name i ∉ fields.*1)
       ∧ ∀ j : nat, (j < i)%nat → candidate base_name j ∈ (fields.*1).
Proof.
  destruct (auto_name_loop_total (λ p, odict_mem p fields) base_name
              (fields.*1)) as (i & Hrun & Hfree & Hbelow).
  { intros x Hx. by apply bool_decide_eq_true in Hx. }
  rewrite length_fmap in Hrun.
  exists i. repeat split.
  - exact Hrun.
  - by apply bool_decide_eq_false in Hfree.
  - intros j Hj. specialize (Hbelow j Hj). by apply bool_decide_eq_true in Hbelow.
Qed.

(** * A sample framework

    An instance of the interface on which the results below are run: no name
    scope, no parameter sharing, and a [NextBlob] that renames with the
    same `_auto_` scheme. *)

Definition sample_dtype (x : scalar) : np_dtype :=
  match x with
  | SFloat _ => np_float64
  | SInt _ => np_int64
  | SStr _ => np_str
  | SBool _ => np_bool
  end.

(** The sample [np.array] knows the dtypes 'int32', 'int64' and 'float32'
    and raises TypeError on any other name. *)
Definition sample_np_array (a : array_like) (dtype : option string)
  : outcome ndarray :=
  let inferred :=
    match a with
    | AScalar x | AList (x :: _) => sample_dtype x
    | AList [] => np_float64
    end in
  let shape := match a with
               | AScalar _ => []
               | AList xs => [Z.of_nat (length xs)]
               end in
  let flat := match a with
              | AScalar x => [x]
              | AList xs => xs
              end in
  match dtype with
  | None =>
      Returned {| nd_dtype := inferred; nd_shape := shape; nd_flat := flat |}
  | Some d =>
      if decide (d = "int32")
      then Returned {| nd_dtype := np_int32; nd_shape := shape;
                       nd_flat := flat |}
      else if decide (d = "int64")
      then Returned {| nd_dtype := np_int64; nd_shape := shape;
                       nd_flat := flat |}
      else if decide (d = "float32")
      then Returned {| nd_dtype := np_float32; nd_shape := shape;
                       nd_flat := flat |}
      else Raised TypeError
  end.

Definition sample_NextBlob (n : Net) (prefix : string) : string * Net :=
  let taken := net_registered n in
  let blob :=
    default prefix
      (auto_name_loop (size taken) (λ x, bool_decide (x ∈ taken))
         prefix prefix 0) in
  (blob, {| net_name := net_name n; net_op := net_op n;
            net_registered := {[ blob ]} ∪ taken |}).

Lemma sample_NextBlob_fresh n prefix :
  (sample_NextBlob n prefix).1 ∉ net_registered n.
Proof.
  unfold sample_NextBlob. simpl.
  destruct (auto_name_loop_set (net_registered n) prefix)
    as (i & -> & Hfree & _).
  exact Hfree.
Qed.

Lemma sample_NextBlob_registered n prefix :
  net_registered (sample_NextBlob n prefix).2
  = {[ (sample_NextBlob n prefix).1 ]} ∪ net_registered n.
Proof. reflexivity. Qed.

(** The sample [CreateOperator] refuses integers outside int64. *)
Definition int64 (z : Z) : bool := bool_decide (- 2 ^ 63 ≤ z < 2 ^ 63)%Z.

Definition sample_argument_accepted (v : argval) : bool :=
  match v with
  | ArgInts l => forallb int64 l
  | ArgScalars l =>
      forallb (λ x, match x with SInt z => int64 z | _ => true end) l
  end.

Definition sample_operator_accepted (type : string)
    (inputs outputs : list string) (kwargs : list (string * argval)) : bool :=
  forallb (λ kv : string * argval, sample_argument_accepted kv.2) kwargs.

Lemma sample_np_array_float (q : Q) :
  q = 1%Q ∨ q = 0%Q →
  sample_np_array (AScalar (SFloat q)) None
  = Returned {| nd_dtype := np_float64; nd_shape := [];
                nd_flat := [SFloat q] |}.
Proof. reflexivity. Qed.

Lemma sample_operator_accepted_float (blob : string) (q : Q) :
  q = 1%Q ∨ q = 0%Q →
  sample_operator_accepted "GivenTensorFill" [] [blob]
    [("shape", ArgInts []); ("values", ArgScalars [SFloat q])] = true.
Proof. reflexivity. Qed.

(** Dictionaries in insertion order, as on Python 3.7. *)
Definition sample_framework : Framework :=
  {| python_version := Py3;
     viewitems := λ V d, d;
     viewitems_perm := λ V d, Permutation_refl d;
     ScopedName := λ prefix, prefix;
     get_parameter_name := λ param_name, param_name;
     NextBlob := sample_NextBlob;
     NextBlob_fresh := sample_NextBlob_fresh;
     NextBlob_registered := sample_NextBlob_registered;
     NewRecord := λ n schema, (schema, n);
     np_array := sample_np_array;
     np_array_float := sample_np_array_float;
     np_array_zero_range := eq_refl;
     operator_accepted := sample_operator_accepted;
     operator_accepted_float := sample_operator_accepted_float;
     operator_accepted_zero_range := λ blob, eq_refl;
     get_param_device := λ param grad param_to_device default_device,
       default default_device (param_to_device !! param) |}.

(** The object [LayerModelHelper('model', Struct(), Struct())]. *)
Definition sample_model : LayerModelHelper :=
  (@__init__ sample_framework top_level "model" (Struct []) (Struct [])
     false).2.

(** * Invariants of clients *)

Definition same_metrics : relation LayerModelHelper :=
  λ s s', _metrics_schema s' = _metrics_schema s.

Definition loss_kept : relation LayerModelHelper :=
  λ s s', is_Some (_loss s) → is_Some (_loss s').

Definition constants_kept : relation LayerModelHelper :=
  λ s s',
    (∀ name blob, global_constants s !! name = Some blob →
                  global_constants s' !! name = Some blob)
    ∧ (∀ blob op, odict_get blob (global_constant_initializers s) = Some op →
                  odict_get blob (global_constant_initializers s') = Some op).

#[global] Instance same_metrics_preorder : PreOrder same_metrics.
Proof. split; [done | intros x y z; unfold same_metrics; congruence]. Qed.

#[global] Instance loss_kept_preorder : PreOrder loss_kept.
Proof. split; unfold loss_kept; [intros ? | intros ? ? ?]; auto. Qed.

#[global] Instance constants_kept_preorder : PreOrder constants_kept.
Proof.
  split; unfold constants_kept; [intros ? | intros ? ? ? [??] [??]]; split; auto.
Qed.

#[global] Instance same_metrics_insensitive : Insensitive same_metrics.
Proof. split; intros; reflexivity. Qed.

#[global] Instance loss_kept_insensitive : Insensitive loss_kept.
Proof. split; intros; intros ?; assumption. Qed.

#[global] Instance constants_kept_insensitive : Insensitive constants_kept.
Proof. split; intros; split; intros; assumption. Qed.

(** * Write-once loss and output schema *)

Section write_once.
Context `{Framework}.

Lemma loss_setter_spec v m :
  loss_setter v m
  = match _loss m with
    | Some _ => (Raised AssertionError, m)
    | None => (Returned (), upd_loss v m)
    end.
Proof. unfold loss_setter. run_monad. destruct (_loss m); reflexivity. Qed.

Lemma output_schema_setter_spec v m :
  output_schema_setter v m
  = match _output_schema m with
    | Some _ => (Raised AssertionError, m)
    | None => (Returned (), upd_output_schema v m)
    end.
Proof.
  unfold output_schema_setter. run_monad.
  destruct (_output_schema m); reflexivity.
Qed.

Lemma loss_kept_exec c : preserves loss_kept (exec c).
Proof.
  apply exec_preserves; [apply _ ..|].
  destruct c; try done; intros _; simpl.
  - unfold add_metric_field. preserves_auto. by unfold loss_kept.
  - unfold add_global_constant. preserves_auto; by unfold loss_kept.
  - unfold maybe_add_global_constant, add_global_constant.
    preserves_auto; by unfold loss_kept.
  - unfold next_layer_name. preserves_auto. by unfold loss_kept.
  - intros s. rewrite loss_setter_spec. unfold loss_kept.
    destruct (_loss s) eqn:Hs; simpl; [by rewrite Hs | by intros []].
  - apply add_loss_preserves; [apply _|]. intros v s _. simpl. eauto.
  - apply apply_regularizers_on_loss_preserves;
      [apply _ | | apply insensitive_external_calls].
    intros. apply add_loss_preserves; [apply _|]. intros v s _. simpl. eauto.
Qed.

(** C10.  The [loss] and [output_schema] setters raise AssertionError when
    the attribute is set and store their argument when it is unset; the
    getters raise AssertionError when the attribute is unset and return it
    otherwise.  [clear_output_schema] unsets [output_schema], after which
    the setter succeeds again.  Nothing unsets the loss: once it holds a
    value, the setter raises after every sequence of calls a client can
    make, so the setter stores a value at most once. *)
Theorem loss_and_output_schema_write_once (m : LayerModelHelper) :
  (∀ v, loss_setter v m
        = match _loss m with
          | Some _ => (Raised AssertionError, m)
          | None => (Returned (), upd_loss v m)
          end)
  ∧ (∀ v, output_schema_setter v m
          = match _output_schema m with
            | Some _ => (Raised AssertionError, m)
            | None => (Returned (), upd_output_schema v m)
            end)
  ∧ loss m = match _loss m with
             | Some l => (Returned l, m)
             | None => (Raised AssertionError, m)
             end
  ∧ output_schema m = match _output_schema m with
                      | Some s => (Returned s, m)
                      | None => (Raised AssertionError, m)
                      end
  ∧ _output_schema (clear_output_schema m).2 = None
  ∧ (∀ v, output_schema_setter v (clear_output_schema m).2
          = (Returned (), upd_output_schema v (upd_output_schema None m)))
  ∧ (∀ l cs v, loss_setter v (run cs (upd_loss (Some l) m))
               = (Raised AssertionError, run cs (upd_loss (Some l) m))).
Proof.
  split; [intros; apply loss_setter_spec|].
  split; [intros; apply output_schema_setter_spec|].
  split; [unfold loss; run_monad; destruct (_loss m); reflexivity|].
  split; [unfold output_schema; run_monad;
          destruct (_output_schema m); reflexivity|].
  split; [reflexivity|].
  split; [intros; rewrite output_schema_setter_spec; reflexivity|].
  intros l cs v. rewrite loss_setter_spec.
  pose proof (run_preserves loss_kept cs (upd_loss (Some l) m) loss_kept_exec)
    as Hkept.
  destruct Hkept as [l' Hl']; [simpl; eauto|]. by rewrite Hl'.
Qed.
End write_once.

(** * The metrics schema *)

Section metrics.
Context `{Framework}.

Lemma add_metric_field_spec name value m :
  add_metric_field name value m
  = if odict_mem name (_metrics_schema m)
    then (Raised AssertionError, m)
    else (Returned (),
          upd_metrics_schema (_metrics_schema m ++ [(name, value)]) m).
Proof.
  unfold add_metric_field. run_monad.
  destruct (odict_mem name (_metrics_schema m)); reflexivity.
Qed.

Lemma same_metrics_exec c :
  match c with
  | call_add_metric_field _ _ => True
  | _ => preserves same_metrics (exec c)
  end.
Proof.
  destruct c; try exact I;
    (apply exec_preserves; [apply _ .. |]); intros Hg; try done; clear Hg;
    simpl.
  - unfold add_global_constant. preserves_auto; reflexivity.
  - unfold maybe_add_global_constant, add_global_constant.
    preserves_auto; reflexivity.
  - unfold next_layer_name. preserves_auto. reflexivity.
  - unfold loss_setter. preserves_auto. reflexivity.
  - by apply add_loss_preserves; [apply _|].
  - apply apply_regularizers_on_loss_preserves;
      [apply _ | | apply insensitive_external_calls].
    intros. by apply add_loss_preserves; [apply _|].
Qed.

(** C7.  [add_metric_field(name, value)] raises AssertionError and leaves
    the object as it was when [name] is a field of the metrics schema;
    otherwise the schema becomes the previous one followed by the single
    field [(name, value)].  No other method or property of the class
    changes the metrics schema. *)
Theorem metrics_schema_grows_without_duplicates (m : LayerModelHelper) :
  (∀ name value,
     add_metric_field name value m
     = if bool_decide (name ∈ (_metrics_schema m).*1)
       then (Raised AssertionError, m)
       else (Returned (),
             upd_metrics_schema (_metrics_schema m ++ [(name, value)]) m))
  ∧ (∀ c, match c with
          | call_add_metric_field _ _ => True
          | _ => _metrics_schema (exec c m).2 = _metrics_schema m
          end).
Proof.
  split.
  - intros. apply add_metric_field_spec.
  - intros c. pose proof (same_metrics_exec c) as Hc.
    destruct c; try exact I; apply Hc.
Qed.
End metrics.

(** * Layer names *)

Definition same_layer_names : relation LayerModelHelper :=
  λ s s', _layer_names s' = _layer_names s.

#[global] Instance same_layer_names_preorder : PreOrder same_layer_names.
Proof. split; [done | intros x y z; unfold same_layer_names; congruence]. Qed.

#[global] Instance same_layer_names_insensitive : Insensitive same_layer_names.
Proof. split; intros; reflexivity. Qed.

Section layer_names.
Context `{Framework}.

(** The names that the calls to [next_layer_name] among [cs] return. *)
Fixpoint issued_names (cs : list call) (m : LayerModelHelper) : list string :=
  match cs with
  | [] => []
  | c :: cs' =>
      match c with
      | call_next_layer_name prefix =>
          match (next_layer_name prefix m).1 with
          | Returned name => [name]
          | Raised _ => []
          end
      | _ => []
      end ++ issued_names cs' (exec c m).2
  end.

Lemma next_layer_name_spec prefix m :
  ∃ i : nat,
    next_layer_name prefix m
    = (Returned (candidate (ScopedName prefix) i),
       upd_layer_names
         ({[ candidate (ScopedName prefix) i ]} ∪ _layer_names m) m)
    ∧ (candidate (ScopedName prefix) i ∉ _layer_names m)
    ∧ (∀ j : nat, (j < i)%nat →
                  candidate (ScopedName prefix) j ∈ _layer_names m).
Proof.
  destruct (auto_name_loop_set (_layer_names m) (ScopedName prefix))
    as (i & Hrun & Hfree & Hbelow).
  exists i. split; [|done].
  unfold next_layer_name. run_monad. by rewrite Hrun.
Qed.

Lemma same_layer_names_exec c :
  match c with
  | call_next_layer_name _ => True
  | _ => preserves same_layer_names (exec c)
  end.
Proof.
  destruct c; try exact I;
    (apply exec_preserves; [apply _ .. |]); intros Hg; try done; clear Hg;
    simpl.
  - unfold add_metric_field. preserves_auto. reflexivity.
  - unfold add_global_constant. preserves_auto; reflexivity.
  - unfold maybe_add_global_constant, add_global_constant.
    preserves_auto; reflexivity.
  - unfold loss_setter. preserves_auto. reflexivity.
  - by apply add_loss_preserves; [apply _|].
  - apply apply_regularizers_on_loss_preserves;
      [apply _ | | apply insensitive_external_calls].
    intros. by apply add_loss_preserves; [apply _|].
Qed.

Lemma issued_names_spec cs m :
  NoDup (issued_names cs m)
  ∧ (∀ name, name ∈ issued_names cs m →
             (name ∉ _layer_names m) ∧ name ∈ _layer_names (run cs m))
  ∧ _layer_names m ⊆ _layer_names (run cs m)
  ∧ size (_layer_names (run cs m))
    = (size (_layer_names m) + length (issued_names cs m))%nat.
Proof.
  revert m. induction cs as [|c cs IH]; intros m; simpl.
  - split_and!; [apply NoDup_nil_2 | by intros ? ?%elem_of_nil | done | lia].
  - destruct (IH (exec c m).2) as (Hnd & Hin & Hsub & Hsize).
    assert (Hother : same_layer_names m (exec c m).2 →
      NoDup (issued_names cs (exec c m).2)
      ∧ (∀ name, name ∈ issued_names cs (exec c m).2 →
           (name ∉ _layer_names m)
           ∧ name ∈ _layer_names (run cs (exec c m).2))
      ∧ _layer_names m ⊆ _layer_names (run cs (exec c m).2)
      ∧ size (_layer_names (run cs (exec c m).2))
        = (size (_layer_names m)
           + length (issued_names cs (exec c m).2))%nat).
    { unfold same_layer_names. intros Heq. rewrite <- Heq. done. }
    pose proof (same_layer_names_exec c) as Hc.
    destruct c; try (simpl; apply Hother; apply Hc). clear Hother Hc.
    lazymatch goal with
    | |- context [call_next_layer_name ?q] => rename q into p
    end.
    destruct (next_layer_name_spec p m) as (i & Hrun & Hfree & _).
    simpl in *. unfold void in *.
    remember (candidate (ScopedName p) i) as name.
    assert (Hexec : ((next_layer_name p ≫= λ _, mret ()) m).2
              = upd_layer_names ({[ name ]} ∪ _layer_names m) m).
    { unfold mbind, M_bind. by rewrite Hrun. }
    rewrite Hexec in *. rewrite Hrun. simpl in *.
    assert (Hnew : name ∈ ({[ name ]} ∪ _layer_names m : gset string)).
    { apply elem_of_union_l. by apply elem_of_singleton. }
    split_and!.
    + constructor; [|done]. intros [Hno _]%Hin. by apply Hno.
    + intros x [->|[Hno Hyes]%Hin]%elem_of_cons.
      * split; [done|]. by apply Hsub.
      * split; [|done]. intros Hx. apply Hno. by apply elem_of_union_r.
    + intros x Hx. apply Hsub. by apply elem_of_union_r.
    + rewrite Hsize, size_union, size_singleton; [lia|].
      intros x ->%elem_of_singleton. exact Hfree.
Qed.

(** C9.  [next_layer_name(prefix)] returns the scoped base name when it
    is unused and otherwise base + '_auto_' + i for the smallest i >= 0
    that is unused ([candidate] 0 is the base name, [candidate] (i + 1) is
    base + '_auto_' + i); the name is not in [_layer_names] before the
    call and is added by it.  Over any sequence of calls that a client
    makes, the names returned are pairwise different, none was in the set
    at the start, all are in the set at the end, and the set grows by one
    element per returned name. *)
Theorem next_layer_name_unique (m : LayerModelHelper) :
  (∀ prefix, ∃ i : nat,
     let name := candidate (ScopedName prefix) i in
     next_layer_name prefix m
     = (Returned name, upd_layer_names ({[ name ]} ∪ _layer_names m) m)
     ∧ (name ∉ _layer_names m)
     ∧ (∀ j : nat, (j < i)%nat →
                   candidate (ScopedName prefix) j ∈ _layer_names m)
     ∧ size ({[ name ]} ∪ _layer_names m) = S (size (_layer_names m)))
  ∧ (∀ cs,
       NoDup (issued_names cs m)
       ∧ (∀ name, name ∈ issued_names cs m →
                  (name ∉ _layer_names m) ∧ name ∈ _layer_names (run cs m))
       ∧ _layer_names m ⊆ _layer_names (run cs m)
       ∧ size (_layer_names (run cs m))
         = (size (_layer_names m) + length (issued_names cs m))%nat).
Proof.
  split.
  - intros prefix.
    destruct (next_layer_name_spec prefix m) as (i & Hrun & Hfree & Hbelow).
    exists i. simpl. repeat split; [done | done | done |].
    rewrite size_union, size_singleton; [lia|].
    intros x ->%elem_of_singleton. exact Hfree.
  - intros cs. apply issued_names_spec.
Qed.
End layer_names.

(** * Loss aggregation *)

(** The loss is a struct whose fields are kept, in place, by what follows. *)
Definition loss_extended : relation LayerModelHelper :=
  λ s s', ∀ fields, _loss s = Some (Struct fields) →
                    ∃ more, _loss s' = Some (Struct (fields ++ more)).

#[global] Instance loss_extended_preorder : PreOrder loss_extended.
Proof.
  split.
  - intros s fields Hs. exists []. by rewrite app_nil_r.
  - intros x y z Hxy Hyz fields Hx.
    destruct (Hxy _ Hx) as [more Hy]. destruct (Hyz _ Hy) as [more' Hz].
    exists (more ++ more'). by rewrite app_assoc.
Qed.

#[global] Instance loss_extended_insensitive : Insensitive loss_extended.
Proof. split; intros v s fields Hs; exists []; by rewrite app_nil_r. Qed.

Section loss.
Context `{Framework}.

Lemma add_loss_spec m loss name :
  match loss with
  | None | Some (ListOf _) => add_loss loss name m = (Raised AssertionError, m)
  | Some l =>
      match _loss m with
      | None =>
          add_loss loss name m
          = (Returned (), upd_loss (Some (Struct [(name, l)])) m)
      | Some (Struct fields) =>
          ∃ i : nat,
            add_loss loss name m
            = (Returned (),
               upd_loss (Some (Struct (fields ++ [(candidate name i, l)]))) m)
            ∧ (candidate name i ∉ fields.*1)
            ∧ (∀ j : nat, (j < i)%nat → candidate name j ∈ fields.*1)
      | Some _ => add_loss loss name m = (Raised TypeError, m)
      end
  end.
Proof.
  assert (Hstruct : ∀ l fields,
    ∃ i : nat,
      match auto_name_loop (length fields) (λ p, odict_mem p fields)
              name name 0 with
      | Some prefix =>
          lift_outcome (struct_add (Struct fields) (Struct [(prefix, l)]))
            ≫= λ sum, modify (upd_loss (Some sum))
      | None => raise OutOfFuel
      end m
      = (Returned (),
         upd_loss (Some (Struct (fields ++ [(candidate name i, l)]))) m)
      ∧ (candidate name i ∉ fields.*1)
      ∧ (∀ j : nat, (j < i)%nat → candidate name j ∈ fields.*1)).
  { intros l fields.
    destruct (auto_name_loop_fields fields name)
      as (i & Hrun & Hfree & Hbelow).
    exists i. split; [|done]. rewrite Hrun. run_monad.
    unfold odict_mem. by rewrite bool_decide_eq_false_2. }
  destruct loss as [[blob|fs|item]|]; try reflexivity;
    unfold add_loss; run_monad;
    (destruct (_loss m) as [[?|fields|?]|]; [reflexivity | | reflexivity ..]);
    apply Hstruct.
Qed.

Lemma loss_extended_add_loss l name : preserves loss_extended (add_loss l name).
Proof.
  intros m fields Hm. pose proof (add_loss_spec m l name) as Hspec.
  rewrite Hm in Hspec.
  destruct l as [[blob|fs|item]|];
    try (rewrite Hspec; simpl; exists []; by rewrite app_nil_r);
    destruct Hspec as (i & -> & _); simpl; eauto.
Qed.

Lemma loss_extended_exec c : preserves loss_extended (exec c).
Proof.
  apply exec_preserves; [apply _ ..|].
  destruct c; try done; intros _; simpl.
  - unfold add_metric_field. preserves_auto.
    intros fields Hs; exists []; by rewrite app_nil_r.
  - unfold add_global_constant. preserves_auto;
      intros fields Hs; exists []; by rewrite app_nil_r.
  - unfold maybe_add_global_constant, add_global_constant.
    preserves_auto; intros fields Hs; exists []; by rewrite app_nil_r.
  - unfold next_layer_name. preserves_auto.
    intros fields Hs; exists []; by rewrite app_nil_r.
  - intros s fields Hs. rewrite loss_setter_spec, Hs. simpl.
    exists []. by rewrite app_nil_r.
  - apply loss_extended_add_loss.
  - apply apply_regularizers_on_loss_preserves;
      [apply _ | apply loss_extended_add_loss
      | apply insensitive_external_calls].
Qed.

(** C4.  [add_loss(loss, name)] raises AssertionError unless [loss] is a
    Scalar or a Struct.  When no loss is present the loss becomes the
    single-field struct [(name, loss)].  When the loss is a struct, the
    new loss is appended to its fields under [name] if that is not a field
    name, and otherwise under name + '_auto_' + i for the smallest i >= 0
    that is not a field name; the fields that were there stay as they
    are, and they do so over every sequence of calls of a client. *)
Theorem add_loss_collision_free (m : LayerModelHelper) :
  (∀ loss name,
     match loss with
     | None | Some (ListOf _) =>
         add_loss loss name m = (Raised AssertionError, m)
     | Some l =>
         match _loss m with
         | None =>
             add_loss loss name m
             = (Returned (), upd_loss (Some (Struct [(name, l)])) m)
         | Some (Struct fields) =>
             ∃ i : nat,
               add_loss loss name m
               = (Returned (),
                  upd_loss
                    (Some (Struct (fields ++ [(candidate name i, l)]))) m)
               ∧ (candidate name i ∉ fields.*1)
               ∧ (∀ j : nat, (j < i)%nat → candidate name j ∈ fields.*1)
         | Some _ => add_loss loss name m = (Raised TypeError, m)
         end
     end)
  ∧ (∀ fields cs,
       ∃ more, _loss (run cs (upd_loss (Some (Struct fields)) m))
               = Some (Struct (fields ++ more))).
Proof.
  split.
  - intros. apply add_loss_spec.
  - intros fields cs.
    apply (run_preserves loss_extended cs _ loss_extended_exec).
    reflexivity.
Qed.
End loss.

(** * Dictionaries as association lists: facts *)

Section odict_facts.
Context {V : Type}.
Implicit Types (d : list (string * V)) (k : string) (v : V).

Lemma odict_get_set_eq k v d : odict_get k (odict_set k v d) = Some v.
Proof.
  induction d as [|[k' v'] d IH]; simpl.
  - by rewrite decide_True.
  - destruct (decide (k' = k)) as [->|Hne]; simpl.
    + by rewrite decide_True.
    + by rewrite decide_False.
Qed.

Lemma odict_get_set_ne k k' v d :
  k ≠ k' → odict_get k' (odict_set k v d) = odict_get k' d.
Proof.
  intros Hne. induction d as [|[k0 v0] d IH]; simpl.
  - by rewrite decide_False.
  - destruct (decide (k0 = k)) as [->|Hne0]; simpl.
    + by rewrite !decide_False.
    + by rewrite IH.
Qed.

Lemma odict_get_None k d : k ∉ d.*1 → odict_get k d = None.
Proof.
  induction d as [|[k' v'] d IH]; simpl; [done|].
  intros Hk. apply not_elem_of_cons in Hk as [Hne Hk].
  rewrite decide_False by done. by apply IH.
Qed.

Lemma odict_get_Some k v d : odict_get k d = Some v → (k, v) ∈ d.
Proof.
  induction d as [|[k' v'] d IH]; simpl; [done|].
  destruct (decide (k' = k)) as [->|Hne].
  - intros [= ->]. apply elem_of_cons. by left.
  - intros Hd. apply elem_of_cons. right. by apply IH.
Qed.


Lemma odict_set_fresh k v d : k ∉ d.*1 → odict_set k v d = d ++ [(k, v)].
Proof.
  induction d as [|[k' v'] d IH]; simpl; [done|].
  intros Hk. apply not_elem_of_cons in Hk as [Hne Hk].
  rewrite decide_False by done. by rewrite IH.
Qed.

Lemma odict_set_keys k v d :
  (odict_set k v d).*1 = if bool_decide (k ∈ d.*1) then d.*1 else d.*1 ++ [k].
Proof.
  induction d as [|[k' v'] d IH]; [done|]. cbn [odict_set].
  destruct (decide (k' = k)) as [->|Hne]; rewrite !fmap_cons; cbn [fst].
  - rewrite bool_decide_eq_true_2; [done|]. apply elem_of_cons. by left.
  - rewrite IH. destruct (bool_decide (k ∈ d.*1)) eqn:Hk.
    + apply bool_decide_eq_true in Hk. rewrite bool_decide_eq_true_2; [done|].
      apply elem_of_cons. by right.
    + apply bool_decide_eq_false in Hk. rewrite bool_decide_eq_false_2; [done|].
      intros [?|?]%elem_of_cons; congruence.
Qed.
End odict_facts.

(** * Global constants *)

Section global_constants.
Context `{Framework}.

(** What [add_global_constant] does, exception by exception.  The name
    is bound to its blob before the initializer is built, and stays bound
    when building or storing the initializer raises. *)
Lemma add_global_constant_spec ctx name array dtype init m :
  add_global_constant ctx (PyStr name) array dtype init m
  = match global_constants m !! name with
    | Some _ => (Raised AssertionError, m)
    | None =>
        let blob := (NextBlob (net m) name).1 in
        let m1 :=
          upd_global_constants (<[name := blob]> (global_constants m))
            (upd_net (NextBlob (net m) name).2 m) in
        match _get_global_constant_initializer_op ctx blob array dtype
                init with
        | Raised e => (Raised e, m1)
        | Returned op =>
            if odict_mem blob (global_constant_initializers m)
            then (Raised AssertionError, m1)
            else (Returned blob,
                  upd_global_constant_initializers
                    (odict_set blob op (global_constant_initializers m)) m1)
        end
    end.
Proof.
  unfold add_global_constant. run_monad.
  destruct (global_constants m !! name) eqn:Hname.
  - rewrite bool_decide_eq_false_2; done.
  - rewrite bool_decide_eq_true_2 by done.
    destruct (_get_global_constant_initializer_op _ _ _ _ _); [|done].
    simpl. by destruct (odict_mem _ _).
Qed.

Lemma add_global_constant_not_string ctx name array dtype init m :
  is_string name = false →
  add_global_constant ctx name array dtype init m = (Raised AssertionError, m).
Proof. by destruct name. Qed.

Lemma constants_kept_add_global_constant ctx name array dtype init :
  preserves constants_kept (add_global_constant ctx name array dtype init).
Proof.
  intros m. destruct name as [|z|name]; try reflexivity.
  rewrite add_global_constant_spec.
  destruct (global_constants m !! name) eqn:Hname; [reflexivity|].
  assert (Hgc : ∀ n b, global_constants m !! n = Some b →
                       <[name := (NextBlob (net m) name).1]>
                         (global_constants m) !! n = Some b).
  { intros n b Hn. rewrite lookup_insert_ne; [done | congruence]. }
  cbv zeta.
  destruct (_get_global_constant_initializer_op _ _ _ _ _) as [op|e];
    [|by split].
  destruct (odict_mem _ _) eqn:Hmem; [by split|].
  split; [done|]. simpl. intros blob op' Hblob.
  rewrite odict_get_set_ne; [done|]. intros <-.
  apply bool_decide_eq_false in Hmem.
  by rewrite (odict_get_None _ _ Hmem) in Hblob.
Qed.

Lemma maybe_add_global_constant_spec ctx name array dtype init m :
  maybe_add_global_constant ctx (PyStr name) array dtype init m
  = match global_constants m !! name with
    | None => add_global_constant ctx (PyStr name) array dtype init m
    | Some blob =>
        match _get_global_constant_initializer_op ctx blob array dtype
                init with
        | Raised e => (Raised e, m)
        | Returned op =>
            match odict_get blob (global_constant_initializers m) with
            | None => (Raised KeyError, m)
            | Some stored =>
                if op_equal op stored then (Returned blob, m)
                else (Raised AssertionError, m)
            end
        end
    end.
Proof.
  unfold maybe_add_global_constant.
  unfold mbind at 1, M_bind at 1, gets at 1. cbn [fst snd].
  destruct (global_constants m !! name); [|done]. run_monad.
  destruct (_get_global_constant_initializer_op _ _ _ _ _); [|done].
  simpl. destruct (odict_get _ _); [|done]. by destruct (op_equal _ _).
Qed.

Lemma constants_kept_exec c : preserves constants_kept (exec c).
Proof.
  apply exec_preserves; [apply _ ..|].
  destruct c; try done; intros _; simpl.
  - unfold add_metric_field. preserves_auto. by split.
  - apply preserves_void; [apply _|].
    apply constants_kept_add_global_constant.
  - apply preserves_void; [apply _|].
    unfold maybe_add_global_constant. preserves_auto;
      apply constants_kept_add_global_constant.
  - unfold next_layer_name. preserves_auto. by split.
  - unfold loss_setter. preserves_auto. by split.
  - apply add_loss_preserves; [apply _|]. by split.
  - apply apply_regularizers_on_loss_preserves;
      [apply _ | | apply insensitive_external_calls].
    intros. apply add_loss_preserves; [apply _|]. by split.
Qed.
End global_constants.

Section global_constants_theorems.
Context `{Framework}.

(** C1.  [add_global_constant] raises AssertionError, and changes
    nothing, when the name is already in [global_constants].
    [maybe_add_global_constant] with such a name returns the blob that was
    assigned to it and changes neither dictionary, provided the
    initializer it builds equals the stored one once [debug_info] is
    cleared in both.  Over every sequence of calls a name keeps the blob
    it was given and a blob keeps the initializer it was given: there is
    at most one blob per name and one initializer per blob. *)
Theorem global_constants_deduplicated (m : LayerModelHelper) :
  (∀ ctx name array dtype init blob,
     global_constants m !! name = Some blob →
     add_global_constant ctx (PyStr name) array dtype init m
     = (Raised AssertionError, m))
  ∧ (∀ ctx name array dtype init blob op stored,
       global_constants m !! name = Some blob →
       _get_global_constant_initializer_op ctx blob array dtype init
       = Returned op →
       odict_get blob (global_constant_initializers m) = Some stored →
       op_equal op stored = true →
       maybe_add_global_constant ctx (PyStr name) array dtype init m
       = (Returned blob, m))
  ∧ (∀ cs,
       (∀ name blob,
          global_constants m !! name = Some blob →
          global_constants (run cs m) !! name = Some blob)
       ∧ (∀ blob op,
            odict_get blob (global_constant_initializers m) = Some op →
            odict_get blob (global_constant_initializers (run cs m))
            = Some op)).
Proof.
  split_and!.
  - intros ctx name array dtype init blob Hname.
    by rewrite add_global_constant_spec, Hname.
  - intros ctx name array dtype init blob op stored Hname Hop Hstored Heq.
    by rewrite maybe_add_global_constant_spec, Hname, Hop, Hstored, Heq.
  - intros cs. apply (run_preserves constants_kept cs m constants_kept_exec).
Qed.
End global_constants_theorems.

Lemma global_constants_deduplicated_witness :
  @add_global_constant sample_framework
    {| call_site := "trace 1"; device_scope := None |} (PyStr "ONE")
    (Some (AScalar (SFloat 2))) None None sample_model
  = (Raised AssertionError, sample_model)
  ∧ @maybe_add_global_constant sample_framework
      {| call_site := "trace 2"; device_scope := None |} (PyStr "ONE")
      (Some (AScalar (SFloat 1))) None None sample_model
    = (Returned "ONE", sample_model).
Proof.
  destruct (@global_constants_deduplicated sample_framework sample_model)
    as (Hadd & Hmaybe & _).
  split.
  - apply (Hadd _ _ _ _ _ "ONE"). vm_compute. reflexivity.
  - eapply Hmaybe; vm_compute; reflexivity.
Defined.

(** * Init nets *)

Definition initializer_keys_nodup : relation LayerModelHelper :=
  λ s s', NoDup (global_constant_initializers s).*1 →
          NoDup (global_constant_initializers s').*1.

(** Every blob with an initializer is the blob of a registered name. *)
Definition initializers_named (s : LayerModelHelper) : Prop :=
  ∀ blob op,
    odict_get blob (global_constant_initializers s) = Some op →
    ∃ name, global_constants s !! name = Some blob.

Definition initializers_named_kept : relation LayerModelHelper :=
  λ s s', initializers_named s → initializers_named s'.

#[global] Instance initializers_named_kept_preorder
  : PreOrder initializers_named_kept.
Proof.
  split; unfold initializers_named_kept; [intros ? | intros ? ? ?]; auto.
Qed.

#[global] Instance initializers_named_kept_insensitive
  : Insensitive initializers_named_kept.
Proof. split; intros v s Hs; exact Hs. Qed.

#[global] Instance initializer_keys_nodup_preorder
  : PreOrder initializer_keys_nodup.
Proof. split; unfold initializer_keys_nodup; [intros ? | intros ? ? ?]; auto. Qed.

#[global] Instance initializer_keys_nodup_insensitive
  : Insensitive initializer_keys_nodup.
Proof. split; intros v s Hs; exact Hs. Qed.

(** The two dictionaries of the global constants are as they were. *)
Definition same_constants : relation LayerModelHelper :=
  λ s s', global_constants s' = global_constants s
          ∧ global_constant_initializers s' = global_constant_initializers s.

#[global] Instance same_constants_preorder : PreOrder same_constants.
Proof.
  split; [done | intros x y z [??] [??]; split; congruence].
Qed.

#[global] Instance same_constants_insensitive : Insensitive same_constants.
Proof. split; intros; split; reflexivity. Qed.

(** The calls that register global constants. *)
Definition is_constants_call (c : call) : Prop :=
  match c with
  | call_add_global_constant _ _ _ _ _
  | call_maybe_add_global_constant _ _ _ _ _ => True
  | _ => False
  end.

#[global] Instance is_constants_call_dec c : Decision (is_constants_call c).
Proof. destruct c; apply _. Defined.


Section init_nets.
Context `{Framework}.

Lemma net_op_foldl_extend ops n :
  foldl (λ n op, net_extend [op] n) n ops
  = {| net_name := net_name n; net_op := net_op n ++ ops;
       net_registered := net_registered n |}.
Proof.
  revert n. induction ops as [|op ops IH]; intros n; simpl.
  - rewrite app_nil_r. by destruct n.
  - rewrite IH. simpl. by rewrite <- app_assoc.
Qed.

Lemma create_init_net_spec name m :
  create_init_net name m
  = (Returned {| net_name := name;
                 net_op := viewvalues (global_constant_initializers m);
                 net_registered := ∅ |}, m).
Proof.
  unfold create_init_net, _add_global_constants. run_monad.
  by rewrite net_op_foldl_extend.
Qed.






(** The operator [core.CreateOperator(type, [], blob, shape=..., values=...)]
    made in the context [ctx], written out field by field. *)
Definition fill_operator (ctx : ambient) (type blob : string)
    (shape : list Z) (values : list scalar) : OperatorDef :=
  {| op_type := type; op_input := []; op_output := [blob];
     op_arg := [("shape", ArgInts shape); ("values", ArgScalars values)];
     device_option := device_scope ctx; debug_info := call_site ctx |}.

Lemma float_constant_op ctx blob (q : Q) :
  q = 1%Q ∨ q = 0%Q →
  _get_global_constant_initializer_op ctx blob (Some (AScalar (SFloat q)))
    None None
  = Returned (fill_operator ctx "GivenTensorFill" blob [] [SFloat q]).
Proof.
  intros Hq. unfold _get_global_constant_initializer_op.
  rewrite (np_array_float q Hq). cbn [nd_dtype nd_shape nd_flat].
  rewrite !(decide_False (P := np_float64 = _)) by done.
  unfold CreateOperator. by rewrite (operator_accepted_float blob q Hq).
Qed.

Lemma zero_range_constant_op ctx blob :
  _get_global_constant_initializer_op ctx blob
    (Some (AList [SInt 0; SInt 0])) (Some "int32") None
  = Returned (fill_operator ctx "GivenTensorIntFill" blob [2%Z]
                [SInt 0; SInt 0]).
Proof.
  unfold _get_global_constant_initializer_op.
  rewrite np_array_zero_range. cbn [nd_dtype nd_shape nd_flat].
  rewrite decide_True by done.
  unfold CreateOperator. by rewrite operator_accepted_zero_range.
Qed.

(** The three constants of [_init_global_constants], on the blobs that
    [NextBlob] hands out for them. *)
Lemma _init_global_constants_spec ctx m :
  let r1 := NextBlob (net m) "ONE" in
  let r2 := NextBlob r1.2 "ZERO" in
  let r3 := NextBlob r2.2 "ZERO_RANGE" in
  r1.1 ≠ r2.1 ∧ r1.1 ≠ r3.1 ∧ r2.1 ≠ r3.1
  ∧ _init_global_constants ctx m
    = (Returned (),
       upd_global_constant_initializers
         [(r1.1, fill_operator ctx "GivenTensorFill" r1.1 [] [SFloat 1]);
          (r2.1, fill_operator ctx "GivenTensorFill" r2.1 [] [SFloat 0]);
          (r3.1, fill_operator ctx "GivenTensorIntFill" r3.1 [2%Z]
                   [SInt 0; SInt 0])]
         (upd_global_constants
            (<["ZERO_RANGE" := r3.1]>
               (<["ZERO" := r2.1]> (<["ONE" := r1.1]> ∅)))
            (upd_net r3.2 m))).
Proof.
  intros r1 r2 r3.
  assert (H12 : r1.1 ≠ r2.1).
  { intros Heq. apply (NextBlob_fresh r1.2 "ZERO"). fold r2. rewrite <- Heq.
    unfold r1. rewrite NextBlob_registered. set_solver. }
  assert (H23 : r2.1 ≠ r3.1).
  { intros Heq. apply (NextBlob_fresh r2.2 "ZERO_RANGE"). fold r3.
    rewrite <- Heq. unfold r2. rewrite NextBlob_registered. set_solver. }
  assert (H13 : r1.1 ≠ r3.1).
  { intros Heq. apply (NextBlob_fresh r2.2 "ZERO_RANGE"). fold r3.
    rewrite <- Heq. unfold r2, r1. rewrite !NextBlob_registered. set_solver. }
  subst r1 r2 r3.
  split_and!; [done | done | done |].
  unfold _init_global_constants.
  unfold mbind, M_bind, modify, mret, M_ret.
  rewrite add_global_constant_spec. cbn [global_constants upd_global_constants
    upd_global_constant_initializers global_constant_initializers net upd_net].
  rewrite lookup_empty. cbv zeta.
  rewrite float_constant_op by auto. unfold odict_mem at 1.
  rewrite bool_decide_eq_false_2 by apply not_elem_of_nil.
  rewrite add_global_constant_spec. cbn [global_constants upd_global_constants
    upd_global_constant_initializers global_constant_initializers net upd_net
    odict_set].
  rewrite lookup_insert_ne, lookup_empty by done. cbv zeta.
  rewrite float_constant_op by auto. unfold odict_mem at 1.
  rewrite bool_decide_eq_false_2
    by (simpl; rewrite ?elem_of_cons, elem_of_nil; intuition congruence).
  rewrite add_global_constant_spec. cbn [global_constants upd_global_constants
    upd_global_constant_initializers global_constant_initializers net upd_net
    odict_set].
  rewrite !lookup_insert_ne, lookup_empty by done. cbv zeta.
  rewrite zero_range_constant_op. unfold odict_mem at 1.
  rewrite !(decide_False (P := (_ : string) = _)) by done.
  rewrite bool_decide_eq_false_2
    by (simpl; rewrite ?elem_of_cons, elem_of_nil; intuition congruence).
  cbn [odict_set]. rewrite !(decide_False (P := (_ : string) = _)) by done.
  reflexivity.
Qed.

(** What the constructor leaves behind. *)
Lemma constructor_spec ctx name input_feature_schema trainer_extra_schema
    keep_blobs :
  ∃ m0 one zero zero_range,
    __init__ ctx name input_feature_schema trainer_extra_schema keep_blobs
    = (Returned (), m0)
    ∧ NoDup [one; zero; zero_range]
    ∧ global_constants m0
      = <["ZERO_RANGE" := zero_range]>
          (<["ZERO" := zero]> (<["ONE" := one]> ∅))
    ∧ global_constant_initializers m0
      = [(one, fill_operator ctx "GivenTensorFill" one [] [SFloat 1]);
         (zero, fill_operator ctx "GivenTensorFill" zero [] [SFloat 0]);
         (zero_range, fill_operator ctx "GivenTensorIntFill" zero_range
                        [2%Z] [SInt 0; SInt 0])]
    ∧ net_op (param_init_net m0)
      = viewvalues (global_constant_initializers m0)
    ∧ _layers m0 = [] ∧ params m0 = [] ∧ _layer_names m0 = ∅
    ∧ _param_to_shape m0 = ∅ ∧ _seed m0 = None ∧ _sequence_seed m0 = true
    ∧ param_to_optim m0 = [] ∧ param_to_reg m0 = []
    ∧ _default_optimizer m0 = None ∧ _loss m0 = None
    ∧ _output_schema m0 = None ∧ _breakdown_map m0 = None
    ∧ _metrics_schema m0 = [] ∧ _initialize_params m0 = true
    ∧ external_calls m0 = []
    ∧ _input_feature_schema m0
      = (if keep_blobs then input_feature_schema
         else (NewRecord (new_Net name) input_feature_schema).1).
Proof.
  unfold __init__.
  set (r1 := if keep_blobs then _ else _).
  set (r2 := if keep_blobs then _ else _).
  set (self := Build_LayerModelHelper _ _ _ _ _ _ _ _ _ _ _ _ _ _ _ _ _ _ _
                 _ _ _).
  destruct (_init_global_constants_spec ctx self)
    as (H12 & H13 & H23 & Hinit).
  eexists _, _, _, _. split.
  { unfold mbind at 1, M_bind at 1. rewrite Hinit.
    unfold mbind at 1, M_bind at 1. rewrite create_init_net_spec.
    run_monad. reflexivity. }
  simpl. split_and!; try done.
  - repeat constructor; rewrite ?elem_of_cons, ?elem_of_nil; intuition.
  - subst r1 r2. by destruct keep_blobs.
Qed.

(** ** Registered names and their initializers *)




End init_nets.

Section init_net_theorems.
Context `{Framework}.

End init_net_theorems.



(** * Shared parameters *)

(** The name [create_param] works with: a blob reference stands for its
    own name, a string is resolved by the parameter-sharing context, and
    anything else is refused. *)
Definition resolved_name `{Framework} (param_name : name_arg) : option string :=
  match param_name with
  | NameBlob blob => Some blob
  | NameStr s => Some (get_parameter_name s)
  | NameOther => None
  end.

(** The checks [create_param] makes on its initializer before it looks at
    the recorded shapes: one or two elements, and no 'shape' argument next
    to a shape. *)
Definition initializer_accepted (shape : option (list Z))
    (init : string * list (list (string * argval))) : bool :=
  match init.2 with
  | [] => true
  | [args] =>
      match shape with
      | Some _ => negb (odict_mem "shape" args)
      | None => true
      end
  | _ => false
  end.

(** The keyword arguments of the initializer operator: those that come
    with the initializer, and the shape. *)
Definition init_op_args (shape : option (list Z))
    (init : string * list (list (string * argval)))
  : list (string * argval) :=
  let args := match init.2 with [args] => args | _ => [] end in
  match shape with
  | Some sh => odict_set "shape" (ArgInts sh) args
  | None => args
  end.

(** [create_param] gets past the construction of the initializer operator:
    it builds none, or the framework accepts the one it builds. *)
Definition operator_built `{Framework} (m : LayerModelHelper) (name : string)
    (shape : option (list Z))
    (init : string * list (list (string * argval))) : bool :=
  negb (_initialize_params m)
  || operator_accepted init.1 [] [name] (init_op_args shape init).

Section create_param.
Context `{Framework}.

Lemma create_param_spec ctx param_name shape init opt ps reg m :
  create_param ctx param_name shape init opt ps reg m
  = match resolved_name param_name with
    | None => (Raised TypeError, m)
    | Some name =>
        if initializer_accepted shape init then
          if operator_built m name shape init then
            let param :=
              {| class_of := LayerParameter; parameter := BlobReference name;
                 initializer :=
                   if _initialize_params m
                   then Some {| op_type := init.1; op_input := [];
                                op_output := [name];
                                op_arg := init_op_args shape init;
                                device_option := device_scope ctx;
                                debug_info := call_site ctx |}
                   else None;
                 optimizer := opt; ps_param := ps; regularizer := reg |} in
            let recorded :=
              (Returned param,
               upd_param_to_shape (<[name := shape]> (_param_to_shape m)) m) in
            match _param_to_shape m !! name with
            | None => recorded
            | Some ref_shape =>
                if decide (shape = ref_shape) then recorded
                else (Raised ValueError, m)
            end
          else (Raised ValueError, m)
        else (Raised AssertionError, m)
    end.
Proof.
  unfold create_param, _validate_param_shape, initializer_accepted,
    operator_built, init_op_args, CreateOperator.
  destruct param_name as [blob|s|]; [| |reflexivity];
    (destruct init as [type [|args [|args' rest]]]; [| |reflexivity]);
    destruct shape as [sh|]; run_monad;
    try (destruct (odict_mem "shape" args); [reflexivity|]; run_monad);
    (destruct (_initialize_params m); run_monad;
     [destruct (operator_accepted _ _ _ _); run_monad; [|reflexivity]|]);
    (destruct (_ !! _) as [ref_shape|]; [|reflexivity]);
    destruct (decide (_ = ref_shape)); reflexivity.
Qed.

(** C2, amended.  When the parameter name resolves and the initializer
    passes the argument checks: if the name is recorded with a shape
    different from the requested one, [create_param] raises ValueError and
    leaves the object, and so the recorded shape, as it was; if the name
    is new or the recorded shape is the requested one, and the framework
    builds the initializer operator (or none is to be built),
    [create_param] returns the parameter and records the pair of name and
    shape.  When the framework refuses the initializer operator,
    ValueError is raised before the shapes are compared; when the
    initializer fails the argument checks, AssertionError is raised before
    the operator is built; the object is left as it was in both cases. *)
Theorem create_param_shape_consistency ctx param_name shape init opt ps reg
    name (m : LayerModelHelper) :
  resolved_name param_name = Some name →
  (initializer_accepted shape init = true →
   match _param_to_shape m !! name with
   | Some ref_shape =>
       if decide (shape = ref_shape)
       then operator_built m name shape init = true →
            ∃ param,
              create_param ctx param_name shape init opt ps reg m
              = (Returned param,
                 upd_param_to_shape (<[name := shape]> (_param_to_shape m)) m)
              ∧ parameter param = BlobReference name
       else create_param ctx param_name shape init opt ps reg m
            = (Raised ValueError, m)
   | None =>
       operator_built m name shape init = true →
       ∃ param,
         create_param ctx param_name shape init opt ps reg m
         = (Returned param,
            upd_param_to_shape (<[name := shape]> (_param_to_shape m)) m)
         ∧ parameter param = BlobReference name
   end)
  ∧ (initializer_accepted shape init = true →
     operator_built m name shape init = false →
     create_param ctx param_name shape init opt ps reg m
     = (Raised ValueError, m))
  ∧ (initializer_accepted shape init = false →
     create_param ctx param_name shape init opt ps reg m
     = (Raised AssertionError, m)).
Proof.
  intros Hname. rewrite create_param_spec, Hname.
  split_and!; [intros -> | intros -> -> | intros ->]; [|reflexivity..].
  destruct (_param_to_shape m !! name) as [ref_shape|].
  - destruct (decide (shape = ref_shape)); [intros ->; cbv zeta; eauto|].
    by destruct (operator_built _ _ _ _).
  - intros ->. cbv zeta. eauto.
Qed.
End create_param.

(** The sample model after [create_param('w', [2], ('ConstantFill',))]. *)
Definition sample_model_with_w : LayerModelHelper :=
  (@create_param sample_framework top_level (NameStr "w") (Some [2%Z])
     ("ConstantFill", []) None None None sample_model).2.

Lemma create_param_shape_consistency_witness :
  @create_param sample_framework top_level (NameStr "w") (Some [3%Z])
    ("ConstantFill", []) None None None sample_model_with_w
  = (Raised ValueError, sample_model_with_w).
Proof.
  destruct (@create_param_shape_consistency sample_framework top_level
              (NameStr "w") (Some [3%Z]) ("ConstantFill", []) None None None
              "w" sample_model_with_w eq_refl) as [Hok _].
  exact (Hok eq_refl).
Defined.

(** C2 as stated fails.  With the initializer
    [('ConstantFill', {'shape': [3]})] and the shape [[2]]: on a model where
    'w' is new the call does not succeed, and on a model where 'w' is
    recorded with another shape it raises AssertionError, not ValueError.
    With a dimension of 2^63, which the sample framework cannot store in
    an operator, the call for the new name 'big' does not succeed
    either. *)
Lemma create_param_counterexample :
  _param_to_shape sample_model !! "w" = None
  ∧ @create_param sample_framework top_level (NameStr "w") (Some [2%Z])
      ("ConstantFill", [[("shape", ArgInts [3%Z])]]) None None None
      sample_model
    = (Raised AssertionError, sample_model)
  ∧ _param_to_shape sample_model_with_w !! "w" = Some (Some [2%Z])
  ∧ @create_param sample_framework top_level (NameStr "w") (Some [3%Z])
      ("ConstantFill", [[("shape", ArgInts [3%Z])]]) None None None
      sample_model_with_w
    = (Raised AssertionError, sample_model_with_w)
  ∧ _param_to_shape sample_model !! "big" = None
  ∧ @create_param sample_framework top_level (NameStr "big")
      (Some [(2 ^ 63)%Z]) ("ConstantFill", []) None None None sample_model
    = (Raised ValueError, sample_model).
Proof. split_and!; vm_compute; reflexivity. Qed.

(** * Optimizers *)

(** The event of calling the optimizer tracked for [param]. *)
Definition optimizer_call `{Framework} (grad_map blob_to_device : gmap string string)
    (item : string * option Optimizer) : option event :=
  (λ o, CallOptimizer (optimizer_name o) item.1 (grad_map !! item.1)
          (get_param_device item.1 (grad_map !! item.1) blob_to_device "CPU"))
    <$> item.2.

Lemma odict_get_foldl_set {P V} (f : P → string) (g : P → V) ps d k :
  odict_get k (foldl (λ d p, odict_set (f p) (g p) d) d ps)
  = match last (filter (λ p, f p = k) ps) with
    | Some p => Some (g p)
    | None => odict_get k d
    end.
Proof.
  revert d. induction ps as [|p ps IH]; intros d; [done|].
  cbn [foldl]. rewrite IH, filter_cons.
  destruct (decide (f p = k)) as [<-|Hne].
  - rewrite last_cons. destruct (last _); [done|]. apply odict_get_set_eq.
  - destruct (last _); [done|]. by apply odict_get_set_ne.
Qed.

(** The items of a dictionary that come before the first one without a
    value. *)
Fixpoint before_untracked {V} (items : list (string * option V))
  : list (string * option V) :=
  match items with
  | [] => []
  | (k, None) :: _ => []
  | (k, Some v) :: rest => (k, Some v) :: before_untracked rest
  end.

Lemma filter_none {A} (P : A → Prop) `{!∀ x, Decision (P x)} (l : list A) :
  (∀ x, x ∈ l → ¬ P x) → filter P l = [].
Proof.
  induction l as [|x l IH]; intros Hl; [done|].
  rewrite filter_cons, decide_False.
  - apply IH. intros y Hy. apply Hl, elem_of_cons. by right.
  - apply Hl, elem_of_cons. by left.
Qed.

Lemma filter_unique_name {P} (f : P → string) ps p :
  NoDup (f <$> ps) → p ∈ ps → filter (λ q, f q = f p) ps = [p].
Proof.
  induction ps as [|q ps IH]; intros Hnd Hp; [by apply elem_of_nil in Hp|].
  rewrite fmap_cons in Hnd. apply NoDup_cons in Hnd as [Hq Hnd].
  rewrite filter_cons. apply elem_of_cons in Hp as [->|Hp].
  - rewrite decide_True by done. f_equal.
    apply filter_none. intros x Hx Heq.
    apply Hq. rewrite <- Heq. apply list_elem_of_fmap. by exists x.
  - rewrite decide_False; [by apply IH|].
    intros Heq. apply Hq. rewrite Heq. apply list_elem_of_fmap. by exists p.
Qed.

Section optimizers.
Context `{Framework}.

(** A test that holds for all items does so in whatever order they are
    enumerated. *)
Lemma forallb_viewitems {V} (f : string * V → bool) (d : list (string * V)) :
  forallb f (viewitems d) = forallb f d.
Proof.
  apply eq_true_iff_eq. rewrite !forallb_forall.
  split; intros Hall x Hx; apply Hall; apply list_elem_of_In;
    apply list_elem_of_In in Hx;
    [by rewrite viewitems_perm | by rewrite <- (viewitems_perm V d)].
Qed.

Lemma add_layer_parameters_returned ps m m' :
  add_layer_parameters ps m = (Returned (), m') →
  param_to_optim m'
  = foldl (λ d p, odict_set (str (parameter p))
                    (py_or (optimizer p) (_default_optimizer m)) d)
      (param_to_optim m) ps
  ∧ _default_optimizer m' = _default_optimizer m.
Proof.
  revert m m'.
  induction ps as [|p ps IH]; intros m m'; cbn [add_layer_parameters].
  - by intros [= <-].
  - destruct (parameter p) as [blob|] eqn:Hp; [|done]. run_monad.
    destruct (class_of p); run_monad; [| |done].
    + match goal with |- context [add_layer_parameters ps ?m1] =>
        destruct (add_layer_parameters ps m1) as [[[]|e] m2] eqn:Hrest;
        [|done]; apply IH in Hrest as [Hoptim Hdefault]
      end.
      intros [= <-]. rewrite Hoptim, Hdefault, Hp. split; reflexivity.
    + match goal with |- context [add_layer_parameters ps ?m1] =>
        destruct (add_layer_parameters ps m1) as [[[]|e] m2] eqn:Hrest;
        [|done]; apply IH in Hrest as [Hoptim Hdefault]
      end.
      intros [= <-]. rewrite Hoptim, Hdefault, Hp. split; reflexivity.
Qed.

Lemma add_layer_returned layer m schema m' :
  add_layer layer m = (Returned schema, m') →
  schema = layer_output_schema layer
  ∧ param_to_optim m'
    = foldl (λ d p, odict_set (str (parameter p))
                      (py_or (optimizer p) (_default_optimizer m)) d)
        (param_to_optim m) (get_parameters layer).
Proof.
  unfold add_layer.
  unfold mbind at 1, M_bind at 1, modify at 1.
  unfold mbind at 1, M_bind at 1.
  destruct (add_layer_parameters _ _) as [[[]|e] m1] eqn:Hps; [|done].
  apply add_layer_parameters_returned in Hps as [Hoptim _].
  run_monad. destruct (add_operators layer _ _) as [[[]|e] [n i]]; [|done].
  simpl. intros [= <- <-]. split; [done|]. exact Hoptim.
Qed.

Lemma optimizers_loop_spec grad_map blob_to_device items m :
  optimizers_loop grad_map blob_to_device items m
  = if forallb (λ item, bool_decide (is_Some item.2)) items
    then (Returned (),
          upd_external_calls
            (external_calls m
             ++ omap (optimizer_call grad_map blob_to_device) items) m)
    else (Raised AssertionError,
          upd_external_calls
            (external_calls m
             ++ omap (optimizer_call grad_map blob_to_device)
                  (before_untracked items))
            m).
Proof.
  revert m. induction items as [|[param [o|]] items IH]; intros m;
    cbn [optimizers_loop].
  - simpl. rewrite app_nil_r. by destruct m.
  - run_monad. rewrite IH. simpl.
    destruct (forallb _ items); simpl; by rewrite <- app_assoc.
  - simpl. rewrite app_nil_r. by destruct m.
Qed.
End optimizers.

Section optimizer_theorems.
Context `{Framework}.

(** C3, amended.  After [add_layer(layer)] returns, [param_to_optim] maps
    the name of every parameter of the layer that is the last one of that
    name in the layer's list (every parameter, when the names in the list
    are distinct) to the parameter's own optimizer if it is set, and
    otherwise to the model's [default_optimizer].  [apply_optimizers]
    raises AssertionError if a tracked optimizer is None; otherwise it
    calls each tracked optimizer once, in the order in which the
    interpreter enumerates the dictionary, with the gradient that
    [grad_map] holds for the parameter (None when it holds none), and
    changes nothing else. *)
Theorem optimizers_tracked_per_parameter (m : LayerModelHelper) :
  (∀ layer schema m' p,
     add_layer layer m = (Returned schema, m') →
     last (filter (λ q, str (parameter q) = str (parameter p))
             (get_parameters layer)) = Some p →
     odict_get (str (parameter p)) (param_to_optim m')
     = Some (py_or (optimizer p) (_default_optimizer m)))
  ∧ (∀ layer schema m' p,
       add_layer layer m = (Returned schema, m') →
       NoDup ((λ q, str (parameter q)) <$> get_parameters layer) →
       p ∈ get_parameters layer →
       odict_get (str (parameter p)) (param_to_optim m')
       = Some (py_or (optimizer p) (_default_optimizer m)))
  ∧ (∀ grad_map blob_to_device,
       let calls := omap (optimizer_call grad_map (default ∅ blob_to_device)) in
       apply_optimizers grad_map blob_to_device m
       = if forallb (λ item, bool_decide (is_Some item.2)) (param_to_optim m)
         then (Returned (),
               upd_external_calls
                 (external_calls m ++ calls (viewitems (param_to_optim m))) m)
         else (Raised AssertionError,
               upd_external_calls
                 (external_calls m
                  ++ calls (before_untracked (viewitems (param_to_optim m))))
                 m))
  ∧ (∀ grad_map blob_to_device,
       forallb (λ item, bool_decide (is_Some item.2)) (param_to_optim m)
       = true →
       omap (optimizer_call grad_map blob_to_device)
         (viewitems (param_to_optim m))
       ≡ₚ omap (optimizer_call grad_map blob_to_device) (param_to_optim m)
       ∧ length (omap (optimizer_call grad_map blob_to_device)
                   (param_to_optim m))
         = length (param_to_optim m)).
Proof.
  assert (Hlast : ∀ layer schema m' p,
    add_layer layer m = (Returned schema, m') →
    last (filter (λ q, str (parameter q) = str (parameter p))
            (get_parameters layer)) = Some p →
    odict_get (str (parameter p)) (param_to_optim m')
    = Some (py_or (optimizer p) (_default_optimizer m))).
  { intros layer schema m' p [_ ->]%add_layer_returned Hp.
    pose proof (odict_get_foldl_set (λ q, str (parameter q))
                  (λ q, py_or (optimizer q) (_default_optimizer m))
                  (get_parameters layer) (param_to_optim m)
                  (str (parameter p))) as Hget.
    cbv beta in Hget. by rewrite Hget, Hp. }
  split_and!.
  - exact Hlast.
  - intros layer schema m' p Hadd Hnd Hp. apply (Hlast _ _ _ _ Hadd).
    by rewrite (filter_unique_name (λ q, str (parameter q))).
  - intros grad_map blob_to_device. unfold apply_optimizers.
    unfold mbind, M_bind, gets. cbn [fst snd].
    rewrite optimizers_loop_spec.
    by rewrite (forallb_viewitems _ (param_to_optim m)).
  - intros grad_map blob_to_device Hall. split.
    + apply omap_Permutation, viewitems_perm.
    + clear Hlast. revert Hall.
      induction (param_to_optim m) as [|[param [o|]] items IH]; simpl;
        [done | | done].
      intros Hall. f_equal. by apply IH.
Qed.
End optimizer_theorems.

Definition sample_adagrad : Optimizer := {| optimizer_name := "adagrad" |}.
Definition sample_sgd : Optimizer := {| optimizer_name := "sgd" |}.

Definition sample_parameter (name : string) (opt : option Optimizer)
    (reg : option Regularizer) : ParamObject :=
  {| class_of := LayerParameter; parameter := BlobReference name;
     initializer := None; optimizer := opt; ps_param := None;
     regularizer := reg |}.

Definition sample_layer (ps : list ParamObject) : Layer :=
  {| get_parameters := ps; layer_output_schema := Struct [];
     add_operators := λ n init_net, (Returned (), (n, init_net)) |}.

(** The sample model with [default_optimizer] set to sgd. *)
Definition sample_model_sgd : LayerModelHelper :=
  (default_optimizer_setter (Some sample_sgd) sample_model).2.

(** A layer with the parameters 'w' (optimizer adagrad) and 'b' (no
    optimizer of its own). *)
Definition sample_fc : Layer :=
  sample_layer [sample_parameter "w" (Some sample_adagrad) None;
                sample_parameter "b" None None].

Lemma optimizers_tracked_per_parameter_witness :
  odict_get "w"
    (param_to_optim (add_layer sample_fc sample_model_sgd).2)
  = Some (Some sample_adagrad)
  ∧ odict_get "b"
      (param_to_optim (add_layer sample_fc sample_model_sgd).2)
    = Some (Some sample_sgd).
Proof.
  destruct (@optimizers_tracked_per_parameter sample_framework
              sample_model_sgd) as (_ & Hdistinct & _).
  assert (Hadd : add_layer sample_fc sample_model_sgd
                 = (Returned (Struct []),
                    (add_layer sample_fc sample_model_sgd).2))
    by (vm_compute; reflexivity).
  assert (Hnd : NoDup ((λ q, str (parameter q))
                         <$> get_parameters sample_fc)).
  { simpl. repeat constructor; rewrite ?elem_of_cons, ?elem_of_nil;
      intuition discriminate. }
  split.
  - apply (Hdistinct _ _ _ (sample_parameter "w" (Some sample_adagrad) None)
             Hadd Hnd).
    apply elem_of_cons. by left.
  - apply (Hdistinct _ _ _ (sample_parameter "b" None None) Hadd Hnd).
    apply elem_of_cons. right. apply elem_of_cons. by left.
Defined.

(** A layer whose list of parameters holds the name 'w' twice, first with
    the optimizer adagrad and then with sgd. *)
Definition sample_twice : Layer :=
  sample_layer [sample_parameter "w" (Some sample_adagrad) None;
                sample_parameter "w" (Some sample_sgd) None].

(** C3 as stated fails: [add_layer] returns, and the name of the first
    parameter is mapped to sgd, which is neither that parameter's own
    optimizer (adagrad) nor the default optimizer (None). *)
Lemma add_layer_counterexample :
  (add_layer sample_twice sample_model).1
  = Returned (Struct [])
  ∧ sample_parameter "w" (Some sample_adagrad) None
    ∈ get_parameters sample_twice
  ∧ _default_optimizer sample_model = None
  ∧ odict_get "w"
      (param_to_optim (add_layer sample_twice sample_model).2)
    = Some (Some sample_sgd)
  ∧ Some sample_sgd ≠ Some sample_adagrad.
Proof.
  split_and!; [vm_compute; reflexivity | apply elem_of_cons; by left
              | vm_compute; reflexivity | vm_compute; reflexivity | done].
Qed.

(** * Regularizers *)












Arguments add_loss : simpl never.



Section regularizers.
Context `{Framework}.





End regularizers.

Section regularizer_theorems.
Context `{Framework}.

End regularizer_theorems.








(** * The breakdown map *)

Lemma String_leb_trans (a b c : string) :
  String.leb a b = true → String.leb b c = true → String.leb a c = true.
Proof.
  unfold String.leb. revert b c.
  induction a as [|x a IH]; intros [|y b] [|z c]; simpl; try done.
  unfold Ascii.compare.
  destruct (N.compare_spec (Ascii.N_of_ascii x) (Ascii.N_of_ascii y)),
    (N.compare_spec (Ascii.N_of_ascii y) (Ascii.N_of_ascii z)),
    (N.compare_spec (Ascii.N_of_ascii x) (Ascii.N_of_ascii z));
    try done; try lia; eauto.
Qed.

#[global] Instance pyatom_le_total : Total pyatom_le.
Proof.
  intros [|x|s] [|y|t]; unfold pyatom_le; simpl; auto.
  - destruct (decide (x ≤ y)%Z).
    + left. by apply bool_decide_eq_true.
    + right. apply bool_decide_eq_true. lia.
  - apply String.leb_total.
Qed.

#[global] Instance pyatom_le_trans : Transitive pyatom_le.
Proof.
  intros [|x|s] [|y|t] [|z|u]; unfold pyatom_le; simpl; try done.
  - rewrite !bool_decide_eq_true. lia.
  - apply String_leb_trans.
Qed.

Lemma range_sorted n : Sorted pyatom_le (range n).
Proof.
  unfold range. generalize 0%nat.
  induction n as [|n IH]; intros a; simpl; constructor.
  - apply IH.
  - destruct n; simpl; constructor.
    unfold pyatom_le. simpl. apply bool_decide_eq_true. lia.
Qed.

Lemma range_elem_int n x : x ∈ range n → ∃ z, x = PyInt z.
Proof. unfold range. intros (k & -> & _)%list_elem_of_fmap. by eexists. Qed.

(** In Python 2 the sorted values equal [range(n)] exactly when the values
    are the integers 0 .. n-1 in some order. *)
Lemma sorted_eq_range_iff (values : list pyatom) n :
  merge_sort pyatom_le values = range n ↔ values ≡ₚ range n.
Proof.
  split.
  - intros <-. symmetry. apply merge_sort_Permutation.
  - intros Hperm. apply (Sorted_unique_strong pyatom_le).
    + intros x1 x2 Hx1 Hx2.
      rewrite merge_sort_Permutation, Hperm in Hx1.
      apply range_elem_int in Hx1 as [z1 ->].
      apply range_elem_int in Hx2 as [z2 ->].
      unfold pyatom_le. simpl. rewrite !bool_decide_eq_true.
      intros. f_equal. lia.
    + apply Sorted_merge_sort, _.
    + apply range_sorted.
    + by rewrite merge_sort_Permutation.
Qed.

Section breakdown_map.
Context `{Framework}.

(** Under Python 3 the setter stores nothing, whatever it is given. *)
Lemma breakdown_map_setter_py3 v m :
  python_version = Py3 →
  (breakdown_map_setter v m).2 = m
  ∧ ((breakdown_map_setter v m).1 = Raised AssertionError
     ∨ (breakdown_map_setter v m).1 = Raised TypeError).
Proof.
  intros Hpy. unfold breakdown_map_setter. destruct v as [a|items]; [auto|].
  rewrite Hpy. run_monad. destruct (forallb is_string items.*1); [|auto].
  simpl. destruct (_ || _); auto.
Qed.

(** Under Python 2 the setter does what its assertions say. *)
Lemma breakdown_map_setter_py2 v m :
  python_version = Py2 →
  breakdown_map_setter v m
  = match v with
    | PyAtom _ => (Raised AssertionError, m)
    | PyDict items =>
        if forallb is_string items.*1
           && bool_decide (items.*2 ≡ₚ range (length items))
        then (Returned (), upd_breakdown_map (Some items) m)
        else (Raised AssertionError, m)
    end.
Proof.
  intros Hpy. unfold breakdown_map_setter. destruct v as [a|items]; [done|].
  rewrite Hpy. run_monad. destruct (forallb is_string items.*1); [|done].
  simpl.
  rewrite (bool_decide_ext _ _ (sorted_eq_range_iff _ _)).
  by destruct (bool_decide _).
Qed.
End breakdown_map.

(** The sample framework on Python 2, with a hash order that enumerates a
    dictionary backwards. *)
Definition sample_framework_py2 : Framework :=
  {| python_version := Py2;
     viewitems := λ V d, reverse d;
     viewitems_perm := λ V d, reverse_Permutation d;
     ScopedName := λ prefix, prefix;
     get_parameter_name := λ param_name, param_name;
     NextBlob := sample_NextBlob;
     NextBlob_fresh := sample_NextBlob_fresh;
     NextBlob_registered := sample_NextBlob_registered;
     NewRecord := λ n schema, (schema, n);
     np_array := sample_np_array;
     np_array_float := sample_np_array_float;
     np_array_zero_range := eq_refl;
     operator_accepted := sample_operator_accepted;
     operator_accepted_float := sample_operator_accepted_float;
     operator_accepted_zero_range := λ blob, eq_refl;
     get_param_device := λ param grad param_to_device default_device,
       default default_device (param_to_device !! param) |}.

(** C8.  The dictionaries [{'a': 0}] and [{}] have string keys and the
    values 0 .. n-1.  Under Python 3 the setter raises AssertionError on
    both and stores nothing, because [sorted(...) == range(...)] compares a
    list with a range object; under Python 2 it stores [{'a': 0}]. *)
Theorem breakdown_map_setter_rejects_valid_dict :
  @breakdown_map_setter sample_framework
    (PyDict [(PyStr "a", PyInt 0)]) sample_model
  = (Raised AssertionError, sample_model)
  ∧ @breakdown_map_setter sample_framework (PyDict []) sample_model
    = (Raised AssertionError, sample_model)
  ∧ @breakdown_map_setter sample_framework_py2
      (PyDict [(PyStr "a", PyInt 0)]) sample_model
    = (Returned (),
       upd_breakdown_map (Some [(PyStr "a", PyInt 0)]) sample_model).
Proof. split_and!; vm_compute; reflexivity. Qed.


(** * Further properties of the methods *)

(** A variant of [run_preserves] for clients that only make calls of a
    given kind. *)
Lemma run_preserves_on `{Framework} (R : relation LayerModelHelper)
    `{!PreOrder R} (P : call → Prop) cs s :
  (∀ c, P c → preserves R (exec c)) → Forall P cs → R s (run cs s).
Proof.
  intros Hc Hcs. revert s. induction Hcs as [|c cs Hp Hcs IH]; intros s; simpl.
  - reflexivity.
  - etrans; [apply (Hc c Hp s) | apply IH].
Qed.

(** Show that a call preserves a relation by going through the attribute
    updates it makes; [leaf] proves the relation across each update. *)
Ltac frame_method leaf :=
  unfold clear_output_schema, set_initialize_params, add_metric_field,
    maybe_add_global_constant, add_global_constant, create_init_net,
    _add_global_constants, create_param, _validate_param_shape,
    next_layer_name, add_layer, get_parameter_blobs, seed, store_seed,
    apply_seed, default_optimizer, default_optimizer_setter,
    input_feature_schema, trainer_extra_schema, metrics_schema,
    output_schema, output_schema_setter, loss, loss_setter, has_loss,
    add_trainer_extra_schema, layers, apply_regularizers_on_loss,
    apply_regularizers_after_optimizer, apply_optimizers, _GetOne,
    breakdown_map, breakdown_map_setter, NoOptim;
  preserves_auto;
  lazymatch goal with
  | |- preserves _ (add_layer_parameters _) =>
      refine (add_layer_parameters_preserves _ _ _ _ _)
  | |- preserves _ (regularizers_on_loss_loop _) =>
      refine (regularizers_on_loss_loop_preserves _ _ _ _);
      [intros; refine (add_loss_preserves _ _ _ _)|]
  | |- preserves _ (regularizers_after_optimizer_loop _ _) =>
      refine (regularizers_after_optimizer_loop_preserves _ _ _ _)
  | |- preserves _ (optimizers_loop _ _ _) =>
      refine (optimizers_loop_preserves _ _ _ _ _)
  | |- preserves _ (add_loss _ _) => refine (add_loss_preserves _ _ _ _)
  | _ => idtac
  end;
  intros; solve [leaf].

(** ** Init nets only grow *)

Definition initializers_extended : relation LayerModelHelper :=
  λ s s', global_constant_initializers s
          `prefix_of` global_constant_initializers s'.

#[global] Instance initializers_extended_preorder
  : PreOrder initializers_extended.
Proof.
  split; unfold initializers_extended; [intros ? | intros ? ? ?].
  - reflexivity.
  - intros. by etrans.
Qed.

Section init_nets_grow.
Context `{Framework}.

Lemma initializers_extended_add_global_constant ctx name array dtype init :
  preserves initializers_extended
    (add_global_constant ctx name array dtype init).
Proof.
  intros m. unfold initializers_extended.
  destruct name as [|z|name]; try reflexivity.
  rewrite add_global_constant_spec.
  destruct (global_constants m !! name); [reflexivity|]. cbv zeta.
  destruct (_get_global_constant_initializer_op _ _ _ _ _); [|reflexivity].
  destruct (odict_mem _ _) eqn:Hmem; [reflexivity|].
  apply bool_decide_eq_false in Hmem.
  simpl. rewrite odict_set_fresh by done.
  by apply prefix_app_r.
Qed.

Lemma initializers_extended_exec c :
  preserves initializers_extended (exec c).
Proof.
  destruct c; simpl;
    lazymatch goal with
    | |- preserves _ (void (add_global_constant _ _ _ _ _)) =>
        apply preserves_void; [apply _|];
        apply initializers_extended_add_global_constant
    | |- preserves _ (void (maybe_add_global_constant _ _ _ _ _)) =>
        apply preserves_void; [apply _|];
        unfold maybe_add_global_constant; preserves_auto;
        apply initializers_extended_add_global_constant
    | _ => frame_method ltac:(by unfold initializers_extended)
    end.
Qed.

(** An init net created later holds the operators of every init net
    created earlier, as initializers are only ever added; on an interpreter
    whose dictionaries keep insertion order it starts with them. *)
Theorem init_nets_grow (m : LayerModelHelper) cs name1 name2 :
  ∃ net1 net2,
    (create_init_net name1 m).1 = Returned net1
    ∧ (create_init_net name2 (run cs m)).1 = Returned net2
    ∧ net_op net1 ⊆+ net_op net2
    ∧ (insertion_ordered → net_op net1 `prefix_of` net_op net2).
Proof.
  eexists _, _. rewrite !create_init_net_spec.
  split_and!; [reflexivity .. | |]; cbn [fst net_op]; unfold viewvalues;
    destruct (run_preserves initializers_extended cs m
                initializers_extended_exec) as [more ->].
  - rewrite !viewitems_perm, fmap_app. by apply submseteq_inserts_r.
  - intros Hordered. rewrite !Hordered, fmap_app. by apply prefix_app_r.
Qed.
End init_nets_grow.

(** ** Recorded shapes *)

Definition shapes_kept : relation LayerModelHelper :=
  λ s s', ∀ name shape, _param_to_shape s !! name = Some shape →
                        _param_to_shape s' !! name = Some shape.

#[global] Instance shapes_kept_preorder : PreOrder shapes_kept.
Proof. split; unfold shapes_kept; [intros ? | intros ? ? ?]; auto. Qed.

Section shapes.
Context `{Framework}.

Lemma shapes_kept_create_param ctx param_name shape init opt ps reg :
  preserves shapes_kept (create_param ctx param_name shape init opt ps reg).
Proof.
  intros m. rewrite create_param_spec.
  destruct (resolved_name param_name) as [name|]; [|reflexivity].
  destruct (initializer_accepted shape init); [|reflexivity].
  destruct (operator_built m name shape init); [|reflexivity]. cbv zeta.
  assert (Hins : ∀ n s, _param_to_shape m !! n = Some s →
                        (n = name → s = shape) →
                        <[name := shape]> (_param_to_shape m) !! n = Some s).
  { intros n s Hn Hsame. destruct (decide (name = n)) as [<-|Hne].
    - rewrite lookup_insert_eq. f_equal. symmetry. by apply Hsame.
    - by rewrite lookup_insert_ne. }
  destruct (_param_to_shape m !! name) as [ref_shape|] eqn:Hname.
  - destruct (decide (shape = ref_shape)) as [->|]; [|reflexivity].
    intros n s Hn. apply Hins; [done|]. intros ->. congruence.
  - intros n s Hn. apply Hins; [done|]. intros ->. congruence.
Qed.

Lemma shapes_kept_exec c : preserves shapes_kept (exec c).
Proof.
  destruct c; simpl;
    lazymatch goal with
    | |- preserves _ (void (create_param _ _ _ _ _ _ _)) =>
        apply preserves_void; [apply _|]; apply shapes_kept_create_param
    | _ => frame_method ltac:(by unfold shapes_kept)
    end.
Qed.

(** The shape recorded for a parameter name is final: no sequence of calls
    changes it, and every later [create_param] for that name with another
    shape raises (ValueError, or AssertionError when its initializer is
    refused first) and leaves the object as it was. *)
Theorem recorded_shape_is_final (m : LayerModelHelper) name shape cs :
  _param_to_shape m !! name = Some shape →
  _param_to_shape (run cs m) !! name = Some shape
  ∧ ∀ ctx param_name shape' init opt ps reg,
      resolved_name param_name = Some name →
      shape' ≠ shape →
      create_param ctx param_name shape' init opt ps reg (run cs m)
      = (Raised (if initializer_accepted shape' init
                 then ValueError else AssertionError), run cs m).
Proof.
  intros Hname.
  assert (Hrun : _param_to_shape (run cs m) !! name = Some shape)
    by exact (run_preserves shapes_kept cs m shapes_kept_exec name shape Hname).
  split; [done|].
  intros ctx param_name shape' init opt ps reg Hres Hne.
  rewrite create_param_spec, Hres.
  destruct (initializer_accepted shape' init); [|done].
  destruct (operator_built _ _ _ _); [|done].
  cbv zeta. rewrite Hrun. by rewrite decide_False.
Qed.

(** A parameter returned by [create_param] is a LayerParameter on the blob
    of the resolved name, with the optimizer and regularizer that were
    passed, and its shape is recorded.  It has an initializer operator
    exactly when [set_initialize_params] was last called with True; the
    operator has the type given by the initializer, no input, the
    parameter blob as its only output, and the requested shape as its
    'shape' argument. *)
Theorem create_param_returns_parameter (m : LayerModelHelper) b ctx
    param_name sh init opt ps reg param m' :
  create_param ctx param_name (Some sh) init opt ps reg
    (set_initialize_params b m).2 = (Returned param, m') →
  ∃ name,
    resolved_name param_name = Some name
    ∧ class_of param = LayerParameter
    ∧ parameter param = BlobReference name
    ∧ optimizer param = opt
    ∧ regularizer param = reg
    ∧ _param_to_shape m' !! name = Some (Some sh)
    ∧ match initializer param with
      | Some op =>
          b = true ∧ op_type op = init.1 ∧ op_input op = []
          ∧ op_output op = [name]
          ∧ odict_get "shape" (op_arg op) = Some (ArgInts sh)
      | None => b = false
      end.
Proof.
  rewrite create_param_spec.
  destruct (resolved_name param_name) as [name|]; [|done].
  destruct (initializer_accepted (Some sh) init); [|done].
  destruct (operator_built _ _ _ _); [|done]. cbv zeta.
  assert (Hret : ∀ p s,
    (Returned p, s)
    = (Returned param, m') → p = param ∧ s = m') by (by intros ? ? [= -> ->]).
  intros Hrun. exists name.
  destruct (_param_to_shape _ !! name) as [ref_shape|];
    [destruct (decide (Some sh = ref_shape)); [|done]|];
    apply Hret in Hrun as [<- <-]; simpl;
    (split_and!; try done; [apply lookup_insert_eq|]);
    (destruct b; simpl; [|done]);
    split_and!; try done; apply odict_get_set_eq.
Qed.
End shapes.

Lemma recorded_shape_is_final_witness :
  _param_to_shape
    (@run sample_framework [call_clear_output_schema] sample_model_with_w)
  !! "w" = Some (Some [2%Z]).
Proof.
  apply (@recorded_shape_is_final sample_framework sample_model_with_w "w"
           (Some [2%Z]) [call_clear_output_schema]).
  vm_compute. reflexivity.
Defined.

Lemma create_param_returns_parameter_witness :
  ∃ name,
    @resolved_name sample_framework (NameStr "w") = Some name
    ∧ _param_to_shape sample_model_with_w !! name = Some (Some [2%Z]).
Proof.
  destruct (@create_param_returns_parameter sample_framework sample_model
              true top_level (NameStr "w") [2%Z] ("ConstantFill", []) None
              None None
              {| class_of := LayerParameter; parameter := BlobReference "w";
                 initializer :=
                   Some {| op_type := "ConstantFill"; op_input := [];
                           op_output := ["w"];
                           op_arg := [("shape", ArgInts [2%Z])];
                           device_option := None; debug_info := "" |};
                 optimizer := None; ps_param := None; regularizer := None |}
              sample_model_with_w)
    as (name & Hname & _ & _ & _ & _ & Hshape & _).
  - vm_compute. reflexivity.
  - exists name. split; [exact Hname | exact Hshape].
Defined.

(** ** Global constants: failing and repeating *)

Section global_constants_more.
Context `{Framework}.

(** The operators that two calls of [CreateOperator] build from the same
    arguments differ in the debugging information and in the device scope
    of the calls; a stored operator that equals the first, debugging
    information apart, equals the second as well exactly when the device
    scopes are the same. *)
Lemma CreateOperator_contexts ctx1 ctx2 type inputs outputs kwargs op1 :
  CreateOperator ctx1 type inputs outputs kwargs = Returned op1 →
  ∃ op2,
    CreateOperator ctx2 type inputs outputs kwargs = Returned op2
    ∧ op_equal op2 op1 = bool_decide (device_scope ctx2 = device_scope ctx1)
    ∧ ∀ stored,
        op_equal op1 stored = true →
        op_equal op2 stored
        = bool_decide (device_scope ctx2 = device_scope ctx1).
Proof.
  unfold CreateOperator.
  destruct (operator_accepted _ _ _ _); [|done].
  intros [= <-]. eexists. split; [reflexivity|].
  assert (Hscope : ∀ stored,
    op_equal
      {| op_type := op_type stored; op_input := op_input stored;
         op_output := op_output stored; op_arg := op_arg stored;
         device_option := device_scope ctx2; debug_info := call_site ctx2 |}
      stored
    = bool_decide (device_scope ctx2 = device_option stored)).
  { intros stored. unfold op_equal. cbn [op_type op_input op_output op_arg
      device_option debug_info].
    apply bool_decide_ext. split; [by intros [= ->] | by intros ->]. }
  split; [apply (Hscope {| op_type := type |})|].
  intros stored Heq. unfold op_equal in Heq.
  cbn [op_type op_input op_output op_arg device_option debug_info] in Heq.
  apply bool_decide_eq_true in Heq. injection Heq as -> -> -> -> ->.
  apply Hscope.
Qed.

Lemma array_initializer_op_contexts ctx1 ctx2 blob a dtype op1 :
  _get_global_constant_initializer_op ctx1 blob (Some a) dtype None
  = Returned op1 →
  ∃ op2,
    _get_global_constant_initializer_op ctx2 blob (Some a) dtype None
    = Returned op2
    ∧ op_equal op2 op1 = bool_decide (device_scope ctx2 = device_scope ctx1)
    ∧ ∀ stored,
        op_equal op1 stored = true →
        op_equal op2 stored
        = bool_decide (device_scope ctx2 = device_scope ctx1).
Proof.
  unfold _get_global_constant_initializer_op.
  destruct (np_array a dtype); [apply CreateOperator_contexts | done].
Qed.

(** [maybe_add_global_constant] with an array can be repeated from any
    call site within one device scope: once it has returned a blob for a
    name, the same call returns the same blob and changes nothing.  Made
    again in another device scope it raises AssertionError, as the
    comparison of the initializers sets only the debugging information
    aside. *)
Theorem maybe_add_global_constant_idempotent (m : LayerModelHelper) ctx1 ctx2
    name a dtype blob m1 :
  maybe_add_global_constant ctx1 name (Some a) dtype None m
  = (Returned blob, m1) →
  maybe_add_global_constant ctx2 name (Some a) dtype None m1
  = (if decide (device_scope ctx2 = device_scope ctx1)
     then Returned blob else Raised AssertionError, m1).
Proof.
  destruct name as [|z|name]; [done | done |].
  rewrite !maybe_add_global_constant_spec.
  destruct (global_constants m !! name) as [b|] eqn:Hname.
  - destruct (_get_global_constant_initializer_op ctx1 _ _ _ _) as [op1|]
      eqn:Hop1; [|done].
    destruct (odict_get _ _) as [stored|] eqn:Hstored; [|done].
    destruct (op_equal op1 stored) eqn:Heq; [|done].
    intros [= <- <-]. rewrite Hname.
    destruct (array_initializer_op_contexts _ ctx2 _ _ _ _ Hop1)
      as (op2 & -> & _ & Hop2).
    rewrite Hstored, (Hop2 _ Heq).
    by destruct (decide _);
      [rewrite bool_decide_eq_true_2 | rewrite bool_decide_eq_false_2].
  - rewrite add_global_constant_spec, Hname. cbv zeta.
    destruct (_get_global_constant_initializer_op ctx1 _ _ _ _) as [op1|]
      eqn:Hop1; [|done].
    destruct (odict_mem _ _); [done|].
    destruct (array_initializer_op_contexts _ ctx2 _ _ _ _ Hop1)
      as (op2 & Hbuilt & Hop2 & _).
    intros [= <- <-].
    cbn [global_constants upd_global_constants global_constant_initializers
         upd_global_constant_initializers upd_net].
    rewrite lookup_insert_eq, Hbuilt, odict_get_set_eq, Hop2.
    by destruct (decide _);
      [rewrite bool_decide_eq_true_2 | rewrite bool_decide_eq_false_2].
Qed.

End global_constants_more.

(** The sample model after [maybe_add_global_constant('TWO', 2.0)]. *)
Definition sample_model_with_two : LayerModelHelper :=
  (@maybe_add_global_constant sample_framework
     {| call_site := "site 1"; device_scope := None |} (PyStr "TWO")
     (Some (AScalar (SFloat 2))) None None sample_model).2.

Lemma maybe_add_global_constant_idempotent_witness :
  @maybe_add_global_constant sample_framework
    {| call_site := "site 2"; device_scope := None |} (PyStr "TWO")
    (Some (AScalar (SFloat 2))) None None sample_model_with_two
  = (Returned "TWO", sample_model_with_two)
  ∧ @maybe_add_global_constant sample_framework
      {| call_site := "site 1"; device_scope := Some "gpu:0" |} (PyStr "TWO")
      (Some (AScalar (SFloat 2))) None None sample_model_with_two
    = (Raised AssertionError, sample_model_with_two).
Proof.
  assert (Hfirst :
    @maybe_add_global_constant sample_framework
      {| call_site := "site 1"; device_scope := None |} (PyStr "TWO")
      (Some (AScalar (SFloat 2))) None None sample_model
    = (Returned "TWO", sample_model_with_two)) by (vm_compute; reflexivity).
  split.
  - exact (@maybe_add_global_constant_idempotent sample_framework
             sample_model _
             {| call_site := "site 2"; device_scope := None |}
             _ _ _ _ _ Hfirst).
  - exact (@maybe_add_global_constant_idempotent sample_framework
             sample_model _
             {| call_site := "site 1"; device_scope := Some "gpu:0" |}
             _ _ _ _ _ Hfirst).
Defined.


(** ** The constructed object *)

Section constructed.
Context `{Framework}.

Lemma viewitems_nil {V} : viewitems (V:=V) [] = [].
Proof. apply Permutation_nil_r. by rewrite viewitems_perm. Qed.

(** A newly constructed helper has no loss and no output schema (the
    getters raise AssertionError), no layers, no parameters, no seed to
    apply, no default optimizer, no breakdown map and an empty metrics
    schema; applying optimizers or regularizers calls nothing and adds no
    loss. *)
Theorem constructed_helper_is_empty ctx name input_feature_schema
    trainer_extra_schema keep_blobs :
  ∃ m0,
    __init__ ctx name input_feature_schema trainer_extra_schema keep_blobs
    = (Returned (), m0)
    ∧ has_loss m0 = (Returned false, m0)
    ∧ loss m0 = (Raised AssertionError, m0)
    ∧ output_schema m0 = (Raised AssertionError, m0)
    ∧ layers m0 = (Returned [], m0)
    ∧ get_parameter_blobs m0 = (Returned [], m0)
    ∧ apply_seed m0 = (Returned None, m0)
    ∧ default_optimizer m0 = (Returned None, m0)
    ∧ breakdown_map m0 = (Returned None, m0)
    ∧ metrics_schema m0 = (Returned (Struct []), m0)
    ∧ (∀ grad_map blob_to_device,
         (apply_optimizers grad_map blob_to_device m0).1 = Returned ()
         ∧ external_calls (apply_optimizers grad_map blob_to_device m0).2 = [])
    ∧ (apply_regularizers_on_loss m0).1 = Returned ()
    ∧ external_calls (apply_regularizers_on_loss m0).2 = []
    ∧ _loss (apply_regularizers_on_loss m0).2 = None.
Proof.
  destruct (constructor_spec ctx name input_feature_schema
              trainer_extra_schema keep_blobs)
    as (m0 & one & zero & zero_range & Hinit & _ & _ & _ & _ & Hlayers & _ & _
        & _ & Hseed & _ & Hoptim & Hreg & Hdefault & Hloss & Houtput
        & Hbreakdown & Hmetrics & _ & Hcalls & _).
  exists m0. split; [exact Hinit|].
  unfold has_loss, loss, output_schema, layers, get_parameter_blobs,
    apply_seed, default_optimizer, breakdown_map, metrics_schema,
    apply_optimizers, apply_regularizers_on_loss.
  unfold mbind, M_bind, mret, M_ret, gets, raise.
  rewrite Hlayers, Hseed, Hoptim, Hreg, Hdefault, Hloss, Houtput, Hbreakdown,
    Hmetrics, !viewitems_nil.
  simpl. rewrite Hcalls, Hloss. by split_and!.
Qed.

(** [_GetOne] never fails on a constructed helper: after any sequence of
    calls it returns the blob that the constructor registered for 'ONE',
    and the initializer of that blob is still the fill with the value
    1.0. *)
Theorem GetOne_after_construction ctx name input_feature_schema
    trainer_extra_schema keep_blobs :
  ∃ m0 one,
    __init__ ctx name input_feature_schema trainer_extra_schema keep_blobs
    = (Returned (), m0)
    ∧ global_constants m0 !! "ONE" = Some one
    ∧ ∀ cs,
        _GetOne (run cs m0) = (Returned one, run cs m0)
        ∧ global_constants (run cs m0) !! "ONE" = Some one
        ∧ odict_get one (global_constant_initializers (run cs m0))
          = Some (fill_operator ctx "GivenTensorFill" one [] [SFloat 1]).
Proof.
  destruct (constructor_spec ctx name input_feature_schema
              trainer_extra_schema keep_blobs)
    as (m0 & one & zero & zero_range & Hinit & _ & Hgc0 & Hgci0 & _).
  assert (Hone : global_constants m0 !! "ONE" = Some one)
    by (rewrite Hgc0, !lookup_insert_ne by done; apply lookup_insert_eq).
  exists m0, one. split_and!; [exact Hinit | exact Hone |]. intros cs.
  destruct (run_preserves constants_kept cs m0 constants_kept_exec)
    as [Hgc Hgci].
  split_and!.
  - unfold _GetOne, mbind, M_bind, gets. simpl. by rewrite (Hgc _ _ Hone).
  - by apply Hgc.
  - apply Hgci. rewrite Hgci0. simpl. by rewrite decide_True.
Qed.
End constructed.

(** ** Layers, parameters and what is tracked for them *)

(** What [get_parameter_blobs] returns: the parameters of the layers, layer
    by layer. *)
Definition parameter_blobs (m : LayerModelHelper) : list blob_or_other :=
  concat ((λ layer, parameter <$> get_parameters layer) <$> _layers m).

(** [params] lists, in order, some of the parameter blobs of the layers. *)
Definition params_listed (m : LayerModelHelper) : Prop :=
  (BlobReference <$> params m) `sublist_of` parameter_blobs m.

(** A parameter with a tracked regularizer has a tracked optimizer, and a
    parameter with a tracked optimizer is in [params]. *)
Definition tracked_in_params (m : LayerModelHelper) : Prop :=
  (∀ k, k ∈ (param_to_reg m).*1 → k ∈ (param_to_optim m).*1)
  ∧ (∀ k, k ∈ (param_to_optim m).*1 → k ∈ params m).

Definition params_listed_kept : relation LayerModelHelper :=
  λ s s', params_listed s → params_listed s'.

Definition tracked_in_params_kept : relation LayerModelHelper :=
  λ s s', tracked_in_params s → tracked_in_params s'.

#[global] Instance params_listed_kept_preorder : PreOrder params_listed_kept.
Proof. split; unfold params_listed_kept; [intros ? | intros ? ? ?]; auto. Qed.

#[global] Instance tracked_in_params_kept_preorder
  : PreOrder tracked_in_params_kept.
Proof.
  split; unfold tracked_in_params_kept; [intros ? | intros ? ? ?]; auto.
Qed.

Lemma elem_of_odict_set_keys {V} (x k : string) (v : V) d :
  x ∈ (odict_set k v d).*1 ↔ x = k ∨ x ∈ d.*1.
Proof.
  rewrite odict_set_keys. case_bool_decide as Hk.
  - split; [auto|]. intros [->|?]; done.
  - rewrite elem_of_app, list_elem_of_singleton. tauto.
Qed.

Section layers_and_parameters.
Context `{Framework}.

Lemma add_layer_parameters_params ps m :
  _layers (add_layer_parameters ps m).2 = _layers m
  ∧ ∃ k,
      params (add_layer_parameters ps m).2 = params m ++ k
      ∧ (BlobReference <$> k) `prefix_of` (parameter <$> ps)
      ∧ ((add_layer_parameters ps m).1 = Returned () →
         BlobReference <$> k = parameter <$> ps).
Proof.
  revert m. induction ps as [|p ps IH]; intros m; cbn [add_layer_parameters].
  - split; [done|]. exists []. by rewrite app_nil_r.
  - rewrite fmap_cons. destruct (parameter p) as [blob|].
    + run_monad.
      assert (Hstep : ∀ m1 : LayerModelHelper,
        _layers m1 = _layers m → params m1 = params m ++ [blob] →
        _layers (add_layer_parameters ps m1).2 = _layers m
        ∧ ∃ k,
            params (add_layer_parameters ps m1).2 = params m ++ k
            ∧ (BlobReference <$> k)
              `prefix_of` (BlobReference blob :: (parameter <$> ps))
            ∧ ((add_layer_parameters ps m1).1 = Returned () →
               BlobReference <$> k
               = BlobReference blob :: (parameter <$> ps))).
      { intros m1 Hl Hp. destruct (IH m1) as (Hl' & k & Hk & Hpre & Hret).
        split; [congruence|]. exists (blob :: k). split_and!.
        - rewrite Hk, Hp. by rewrite <- app_assoc.
        - rewrite fmap_cons. by apply prefix_cons.
        - intros Hr. rewrite fmap_cons. f_equal. by apply Hret. }
      destruct (class_of p); run_monad.
      * destruct (add_layer_parameters ps _) as [[[]|e] m2] eqn:Hrest;
          match type of Hrest with
          | add_layer_parameters ps ?m1 = _ =>
              specialize (Hstep m1 eq_refl eq_refl); rewrite Hrest in Hstep
          end; exact Hstep.
      * destruct (add_layer_parameters ps _) as [[[]|e] m2] eqn:Hrest;
          match type of Hrest with
          | add_layer_parameters ps ?m1 = _ =>
              specialize (Hstep m1 eq_refl eq_refl); rewrite Hrest in Hstep
          end; exact Hstep.
      * split; [done|]. exists [blob]. split_and!; [done | | done].
        rewrite fmap_cons. apply prefix_cons, prefix_nil.
    + split; [done|]. exists []. rewrite app_nil_r.
      split_and!; [done | apply prefix_nil | done].
Qed.

(** What [add_layer] does to [layers] and [params], whatever its outcome. *)
Lemma add_layer_params layer m :
  _layers (add_layer layer m).2 = _layers m ++ [layer]
  ∧ ∃ k,
      params (add_layer layer m).2 = params m ++ k
      ∧ (BlobReference <$> k) `prefix_of` (parameter <$> get_parameters layer)
      ∧ (∀ schema, (add_layer layer m).1 = Returned schema →
           BlobReference <$> k = parameter <$> get_parameters layer).
Proof.
  destruct (add_layer_parameters_params (get_parameters layer)
              (upd_layers (_layers m ++ [layer]) m))
    as (Hl & k & Hk & Hpre & Hret).
  unfold add_layer. run_monad.
  destruct (add_layer_parameters _ _) as [[[]|e] m2]; simpl in *.
  - destruct (add_operators layer _ _) as [[[]|e] [n i]]; simpl;
      (split; [done|]); exists k; split_and!; auto.
  - split; [done|]. exists k. split_and!; [done | done | done].
Qed.

Lemma params_listed_kept_exec c : preserves params_listed_kept (exec c).
Proof.
  destruct c; simpl;
    lazymatch goal with
    | |- preserves _ (void (add_layer ?layer)) =>
        apply preserves_void; [apply _|]; intros m Hm;
        destruct (add_layer_params layer m) as (Hl & k & Hk & Hpre & _);
        unfold params_listed, parameter_blobs in *;
        rewrite Hl, Hk, !fmap_app, concat_app; simpl; rewrite app_nil_r;
        apply sublist_app; [done|];
        destruct Hpre as [rest ->]; by apply sublist_inserts_r
    | _ => frame_method ltac:(by unfold params_listed_kept)
    end.
Qed.

Lemma tracked_in_params_add_layer_parameters ps m :
  tracked_in_params m → tracked_in_params (add_layer_parameters ps m).2.
Proof.
  revert m. induction ps as [|p ps IH]; intros m Hm;
    cbn [add_layer_parameters]; [done|].
  destruct (parameter p) as [blob|]; [|done]. run_monad.
  destruct Hm as [Hreg Hoptim].
  assert (Htracked : ∀ k,
    k ∈ (odict_set blob (py_or (optimizer p) (_default_optimizer m))
           (param_to_optim m)).*1 → k ∈ params m ++ [blob]).
  { intros k [->|Hk]%elem_of_odict_set_keys; rewrite elem_of_app.
    - right. by apply list_elem_of_singleton.
    - left. by apply Hoptim. }
  destruct (class_of p); run_monad.
  - match goal with |- context [add_layer_parameters ps ?m1] =>
      specialize (IH m1); destruct (add_layer_parameters ps m1) as [[[]|e] m2]
    end; simpl in *; apply IH; (split; [|done]);
      intros k [->|Hk]%elem_of_odict_set_keys;
      apply elem_of_odict_set_keys; auto.
  - match goal with |- context [add_layer_parameters ps ?m1] =>
      specialize (IH m1); destruct (add_layer_parameters ps m1) as [[[]|e] m2]
    end; simpl in *; apply IH; (split; [|done]);
      intros k Hk; apply elem_of_odict_set_keys; auto.
  - split; [|done]. intros k Hk. apply elem_of_odict_set_keys. auto.
Qed.

Lemma tracked_in_params_kept_exec c :
  preserves tracked_in_params_kept (exec c).
Proof.
  destruct c; simpl;
    lazymatch goal with
    | |- preserves _ (void (add_layer ?layer)) =>
        apply preserves_void; [apply _|]; intros m Hm;
        unfold add_layer;
        unfold mbind at 1, M_bind at 1, modify at 1;
        unfold mbind at 1, M_bind at 1;
        pose proof (tracked_in_params_add_layer_parameters
                      (get_parameters layer)
                      (upd_layers (_layers m ++ [layer]) m) Hm) as Hps;
        destruct (add_layer_parameters _ _) as [[[]|e] m2]; [|exact Hps];
        run_monad;
        destruct (add_operators layer _ _) as [[[]|e] [n i]]; exact Hps
    | _ => frame_method ltac:(by unfold tracked_in_params_kept)
    end.
Qed.
End layers_and_parameters.

Section layers_and_parameters_theorems.
Context `{Framework}.

(** [add_layer] records the layer in [layers] whether it returns or
    raises.  When it returns, [get_parameter_blobs] and [params] have both
    grown by exactly the parameters of the layer, in order. *)
Theorem add_layer_records_layer (m : LayerModelHelper) layer :
  _layers (add_layer layer m).2 = _layers m ++ [layer]
  ∧ ∀ schema,
      (add_layer layer m).1 = Returned schema →
      get_parameter_blobs (add_layer layer m).2
      = (Returned (parameter_blobs m ++ (parameter <$> get_parameters layer)),
         (add_layer layer m).2)
      ∧ BlobReference <$> params (add_layer layer m).2
        = (BlobReference <$> params m) ++ (parameter <$> get_parameters layer).
Proof.
  destruct (add_layer_params layer m) as (Hl & k & Hk & _ & Hret).
  split; [exact Hl|]. intros schema Hschema. split.
  - unfold get_parameter_blobs, mbind, M_bind, gets, mret, M_ret.
    cbn [fst snd]. rewrite Hl, fmap_app, concat_app. simpl.
    by rewrite app_nil_r.
  - rewrite Hk, fmap_app. f_equal. by apply (Hret schema).
Qed.

(** On a constructed helper, after any sequence of calls, [params] lists in
    order some of the blobs that [get_parameter_blobs] returns (all of them
    unless an [add_layer] raised half-way); every parameter with a tracked
    regularizer has a tracked optimizer entry, and every parameter with a
    tracked optimizer entry is in [params]. *)
Theorem params_follow_layers ctx name input_feature_schema
    trainer_extra_schema keep_blobs :
  ∃ m0,
    __init__ ctx name input_feature_schema trainer_extra_schema keep_blobs
    = (Returned (), m0)
    ∧ ∀ cs,
        get_parameter_blobs (run cs m0)
        = (Returned (parameter_blobs (run cs m0)), run cs m0)
        ∧ (BlobReference <$> params (run cs m0))
          `sublist_of` parameter_blobs (run cs m0)
        ∧ (∀ k, k ∈ (param_to_reg (run cs m0)).*1 →
                k ∈ (param_to_optim (run cs m0)).*1)
        ∧ (∀ k, k ∈ (param_to_optim (run cs m0)).*1 →
                k ∈ params (run cs m0)).
Proof.
  destruct (constructor_spec ctx name input_feature_schema
              trainer_extra_schema keep_blobs)
    as (m0 & one & zero & zero_range & Hinit & _ & _ & _ & _ & Hlayers
        & Hparams & _ & _ & _ & _ & Hoptim & Hreg & _).
  exists m0. split; [exact Hinit|]. intros cs. split; [reflexivity|].
  split.
  - apply (run_preserves params_listed_kept cs m0 params_listed_kept_exec).
    unfold params_listed, parameter_blobs. by rewrite Hlayers, Hparams.
  - apply (run_preserves tracked_in_params_kept cs m0
             tracked_in_params_kept_exec).
    unfold tracked_in_params. rewrite Hoptim, Hreg.
    split; intros k Hk; by apply elem_of_nil in Hk.
Qed.
End layers_and_parameters_theorems.

(** ** Optimizers are resolved when the layer is added *)

Definition same_param_to_optim : relation LayerModelHelper :=
  λ s s', param_to_optim s' = param_to_optim s.

#[global] Instance same_param_to_optim_preorder : PreOrder same_param_to_optim.
Proof. split; [done | intros x y z; unfold same_param_to_optim; congruence]. Qed.

Definition not_add_layer (c : call) : Prop :=
  match c with
  | call_add_layer _ => False
  | _ => True
  end.

Section late_default_optimizer.
Context `{Framework}.

Lemma same_param_to_optim_exec c :
  not_add_layer c → preserves same_param_to_optim (exec c).
Proof.
  destruct c; simpl; try done; intros _;
    frame_method ltac:(by unfold same_param_to_optim).
Qed.

(** The default optimizer is read when the layer is added.  If a layer is
    added while no default optimizer is set, a parameter without an
    optimizer of its own is tracked with None, and setting
    [default_optimizer] afterwards does not repair it: after any calls
    other than [add_layer], [apply_optimizers] raises AssertionError. *)
Theorem default_optimizer_is_read_by_add_layer (m : LayerModelHelper) layer
    schema m' p cs :
  add_layer layer m = (Returned schema, m') →
  last (filter (λ q, str (parameter q) = str (parameter p))
          (get_parameters layer)) = Some p →
  optimizer p = None →
  _default_optimizer m = None →
  Forall not_add_layer cs →
  ∀ grad_map blob_to_device,
    (apply_optimizers grad_map blob_to_device (run cs m')).1
    = Raised AssertionError.
Proof.
  intros [_ Hoptim]%add_layer_returned Hlast Hp Hdefault Hcs grad_map b2d.
  pose proof (odict_get_foldl_set (λ q, str (parameter q))
                (λ q, py_or (optimizer q) (_default_optimizer m))
                (get_parameters layer) (param_to_optim m)
                (str (parameter p))) as Hget.
  cbv beta in Hget. rewrite Hlast, <- Hoptim, Hp, Hdefault in Hget.
  assert (Hrun : param_to_optim (run cs m') = param_to_optim m')
    by exact (run_preserves_on same_param_to_optim not_add_layer cs m'
                same_param_to_optim_exec Hcs).
  unfold apply_optimizers, mbind, M_bind, gets. cbn [fst snd].
  rewrite optimizers_loop_spec, forallb_viewitems, Hrun.
  apply odict_get_Some in Hget.
  assert (Hall : forallb (λ item : string * option Optimizer,
                            bool_decide (is_Some item.2)) (param_to_optim m')
                 = false).
  { apply not_true_is_false. intros Hall.
    rewrite forallb_forall in Hall. apply list_elem_of_In in Hget.
    specialize (Hall _ Hget). cbn [snd] in Hall.
    apply bool_decide_eq_true in Hall. by destruct Hall. }
  by rewrite Hall.
Qed.
End late_default_optimizer.

Lemma default_optimizer_is_read_by_add_layer_witness :
  (@apply_optimizers sample_framework ∅ None
     (@run sample_framework [call_default_optimizer_setter (Some sample_sgd)]
        (add_layer sample_fc sample_model).2)).1
  = Raised AssertionError.
Proof.
  apply (@default_optimizer_is_read_by_add_layer sample_framework sample_model
           sample_fc (Struct []) _ (sample_parameter "b" None None)).
  - vm_compute. reflexivity.
  - vm_compute. reflexivity.
  - reflexivity.
  - vm_compute. reflexivity.
  - repeat constructor.
Defined.

(** ** The seed *)

Definition same_seed : relation LayerModelHelper :=
  λ s s', _seed s' = _seed s ∧ _sequence_seed s' = _sequence_seed s.

#[global] Instance same_seed_preorder : PreOrder same_seed.
Proof.
  split; [done | intros x y z [??] [??]; split; congruence].
Qed.

Definition not_store_seed (c : call) : Prop :=
  match c with
  | call_store_seed _ _ => False
  | _ => True
  end.

Section seeds.
Context `{Framework}.

Lemma same_seed_exec c : not_store_seed c → preserves same_seed (exec c).
Proof.
  destruct c; simpl; try done; intros _;
    frame_method ltac:(by unfold same_seed).
Qed.

(** A stored seed stays until [store_seed] is called again: the [seed]
    property returns it, and [apply_seed] passes it on, with the flag stored
    beside it, unless it is None or 0.  A seed of 0 is stored but never
    applied. *)
Theorem stored_seed_is_applied (m : LayerModelHelper) s sequence_seed cs :
  Forall not_store_seed cs →
  let m' := run cs (store_seed s sequence_seed m).2 in
  seed m' = (Returned s, m')
  ∧ apply_seed m'
    = (Returned (match s with
                 | Some z => if decide (z = 0%Z) then None
                             else Some (z, sequence_seed)
                 | None => None
                 end), m').
Proof.
  intros Hcs m'.
  destruct (run_preserves_on same_seed not_store_seed cs
              (store_seed s sequence_seed m).2 same_seed_exec Hcs)
    as [Hseed Hflag].
  fold m' in Hseed, Hflag. simpl in Hseed, Hflag.
  unfold seed, apply_seed, mbind, M_bind, gets, mret, M_ret. cbn [fst snd].
  by rewrite Hseed, Hflag.
Qed.
End seeds.

Lemma stored_seed_is_applied_witness :
  @apply_seed
    (@run sample_framework [call_add_loss (Some (Scalar None)) "l"]
       (store_seed (Some 0%Z) true sample_model).2)
  = (Returned None,
     @run sample_framework [call_add_loss (Some (Scalar None)) "l"]
       (store_seed (Some 0%Z) true sample_model).2).
Proof.
  apply (@stored_seed_is_applied sample_framework sample_model (Some 0%Z) true
           [call_add_loss (Some (Scalar None)) "l"]).
  repeat constructor.
Defined.

(** ** The two ways to set the loss *)

Section loss_ways.
Context `{Framework}.

(** [add_loss] and the [loss] setter exclude each other in one direction:
    once [add_loss] has returned, [has_loss] is true and every later
    assignment through the setter raises AssertionError, whatever calls
    come in between. *)
Theorem add_loss_closes_the_setter (m : LayerModelHelper) l name cs v :
  (add_loss l name m).1 = Returned () →
  let m' := run cs (add_loss l name m).2 in
  has_loss m' = (Returned true, m')
  ∧ loss_setter v m' = (Raised AssertionError, m').
Proof.
  intros Hret m'.
  assert (Hset : is_Some (_loss (add_loss l name m).2)).
  { pose proof (add_loss_spec m l name) as Hspec.
    destruct l as [[blob|fs|item]|];
      try (rewrite Hspec in Hret; discriminate);
      (destruct (_loss m) as [[?|fields|?]|];
       [ rewrite Hspec in Hret; discriminate
       | destruct Hspec as (i & -> & _); simpl; eauto
       | rewrite Hspec in Hret; discriminate
       | rewrite Hspec; simpl; eauto ]). }
  destruct (run_preserves loss_kept cs _ loss_kept_exec Hset) as [x Hx].
  fold m' in Hx. rewrite loss_setter_spec, Hx. split; [|done].
  unfold has_loss, mbind, M_bind, gets, mret, M_ret. cbn [fst snd].
  rewrite Hx. rewrite bool_decide_eq_true_2; eauto.
Qed.
End loss_ways.

Lemma add_loss_closes_the_setter_witness :
  loss_setter (Some (Scalar None))
    (@run sample_framework [call_clear_output_schema]
       (add_loss (Some (Scalar None)) "l" sample_model).2)
  = (Raised AssertionError,
     @run sample_framework [call_clear_output_schema]
       (add_loss (Some (Scalar None)) "l" sample_model).2).
Proof.
  apply (@add_loss_closes_the_setter sample_framework sample_model
           (Some (Scalar None)) "l" [call_clear_output_schema]).
  vm_compute. reflexivity.
Defined.

(** ** Metric names *)

Definition metrics_nodup_kept : relation LayerModelHelper :=
  λ s s', NoDup (_metrics_schema s).*1 → NoDup (_metrics_schema s').*1.

#[global] Instance metrics_nodup_kept_preorder : PreOrder metrics_nodup_kept.
Proof. split; unfold metrics_nodup_kept; [intros ? | intros ? ? ?]; auto. Qed.

Section metric_names.
Context `{Framework}.

Lemma metrics_nodup_kept_exec c : preserves metrics_nodup_kept (exec c).
Proof.
  destruct c; simpl;
    lazymatch goal with
    | |- preserves _ (add_metric_field ?name ?value) =>
        intros m Hm; rewrite add_metric_field_spec;
        unfold odict_mem; case_bool_decide as Hname; [done|]; simpl;
        rewrite fmap_app; apply NoDup_app; split_and!;
        [ done
        | by intros x Hx ->%list_elem_of_singleton
        | apply NoDup_singleton ]
    | _ => frame_method ltac:(by unfold metrics_nodup_kept)
    end.
Qed.

(** The metrics schema of a constructed helper never holds two fields of
    one name, whatever calls are made and whichever of them raise. *)
Theorem metric_names_are_distinct ctx name input_feature_schema
    trainer_extra_schema keep_blobs :
  ∃ m0,
    __init__ ctx name input_feature_schema trainer_extra_schema keep_blobs
    = (Returned (), m0)
    ∧ ∀ cs, NoDup (_metrics_schema (run cs m0)).*1.
Proof.
  destruct (constructor_spec ctx name input_feature_schema
              trainer_extra_schema keep_blobs)
    as (m0 & one & zero & zero_range & Hinit & _ & _ & _ & _ & _ & _ & _ & _
        & _ & _ & _ & _ & _ & _ & _ & _ & Hmetrics & _).
  exists m0. split; [exact Hinit|]. intros cs.
  apply (run_preserves metrics_nodup_kept cs m0 metrics_nodup_kept_exec).
  rewrite Hmetrics. apply NoDup_nil_2.
Qed.
End metric_names.

(** ** Numbering of layer names *)

Section layer_numbering.
Context `{Framework}.

(** When exactly the first [k] candidates of a prefix are taken (the
    scoped name and its suffixes `_auto_0` to `_auto_(k-2)`),
    [next_layer_name] returns candidate [k], and afterwards exactly the
    first [k + 1] candidates are taken: repeated calls with one prefix
    count upwards without gaps. *)
Theorem next_layer_name_counts (m : LayerModelHelper) prefix (k : nat) :
  (∀ j : nat, candidate (ScopedName prefix) j ∈ _layer_names m ↔ (j < k)%nat) →
  (next_layer_name prefix m).1 = Returned (candidate (ScopedName prefix) k)
  ∧ ∀ j : nat,
      candidate (ScopedName prefix) j
      ∈ _layer_names (next_layer_name prefix m).2 ↔ (j < S k)%nat.
Proof.
  intros Htaken.
  destruct (next_layer_name_spec prefix m) as (i & Hrun & Hfree & Hbelow).
  assert (i = k) as ->.
  { destruct (decide (i < k)%nat) as [Hlt|Hge].
    - destruct Hfree. by apply Htaken.
    - destruct (decide (k < i)%nat) as [Hlt|?]; [|lia].
      apply Hbelow, Htaken in Hlt. lia. }
  rewrite Hrun. split; [done|]. intros j. simpl.
  rewrite elem_of_union, elem_of_singleton, Htaken. split.
  - intros [Heq%candidate_inj|?]; lia.
  - intros Hj. destruct (decide (j = k)) as [->|]; [by left | right; lia].
Qed.
End layer_numbering.

(** The sample model after two calls of [next_layer_name('fc')]. *)
Definition sample_model_two_fc : LayerModelHelper :=
  (@next_layer_name sample_framework "fc"
     (@next_layer_name sample_framework "fc" sample_model).2).2.

Lemma next_layer_name_counts_witness :
  _layer_names sample_model_two_fc = {[ "fc_auto_0" ]} ∪ ({[ "fc" ]} ∪ ∅)
  ∧ (@next_layer_name sample_framework "fc" sample_model_two_fc).1
    = Returned "fc_auto_1".
Proof.
  assert (Hnames : _layer_names sample_model_two_fc
                   = {[ "fc_auto_0" ]} ∪ ({[ "fc" ]} ∪ ∅))
    by (vm_compute; reflexivity).
  assert (Hc1 : candidate "fc" 1 = "fc_auto_0") by (vm_compute; reflexivity).
  assert (Hc2 : candidate "fc" 2 = "fc_auto_1") by (vm_compute; reflexivity).
  split; [exact Hnames|]. rewrite <- Hc2.
  refine (proj1 (@next_layer_name_counts sample_framework sample_model_two_fc
                   "fc" 2 _)).
  intros j. rewrite Hnames, <- Hc1.
  change (@ScopedName sample_framework "fc") with "fc".
  rewrite !elem_of_union, !elem_of_singleton, elem_of_empty. split.
  - intros [Hj|[Hj|[]]].
    + apply candidate_inj in Hj. lia.
    + apply (candidate_inj "fc" j 0) in Hj. lia.
  - intros Hj. destruct j as [|[|j]]; [right; by left | by left | lia].
Defined.

(** ** The breakdown map on the two Pythons *)

Lemma breakdown_map_setter_py3_witness :
  (@breakdown_map_setter sample_framework
     (PyDict [(PyStr "a", PyInt 0); (PyStr "b", PyNone)]) sample_model).2
  = sample_model.
Proof.
  exact (proj1 (@breakdown_map_setter_py3 sample_framework
                  (PyDict [(PyStr "a", PyInt 0); (PyStr "b", PyNone)])
                  sample_model eq_refl)).
Defined.

Lemma breakdown_map_setter_py2_witness :
  @breakdown_map_setter sample_framework_py2
    (PyDict [(PyStr "b", PyInt 1); (PyStr "a", PyInt 0)]) sample_model
  = (Returned (),
     upd_breakdown_map (Some [(PyStr "b", PyInt 1); (PyStr "a", PyInt 0)])
       sample_model).
Proof.
  rewrite (@breakdown_map_setter_py2 sample_framework_py2 _ _ eq_refl).
  cbn [forallb fmap list_fmap fst is_string andb].
  rewrite bool_decide_eq_true_2; [done|].
  simpl. apply Permutation_swap.
Defined.
